(** * Sequential tool-calling orchestration of the course-materials assistant

    A shallow embedding of [backend/ai_generator.py] (class [AIGenerator]):
    the bounded round loop that talks to the language-generation service,
    dispatches the tools the model asks for and always ends with a text.

    The two external collaborators of the orchestrator, the service client
    and the tool manager, are stateful Python objects.  They are embedded as
    functions of the history of everything that happened so far (the
    [Trace]): every call appends an event to the trace, and the next answer
    of a collaborator may depend on the whole trace.  A mock with a
    [side_effect] list, for instance, is a function of the number of calls
    already recorded.

    Python exceptions are embedded as the [Raise] outcome; only the
    [Exception] hierarchy is covered (what [except Exception] catches). *)

From Stdlib Require Import String List ZArith Bool Lia Ascii DecimalString.
Import ListNotations.
Local Open Scope string_scope.
Local Open Scope list_scope.

(** ** Outcomes of calls that may raise *)

Inductive Outcome (A : Type) : Type :=
| Ok (value : A)
| Raise (message : string).

Arguments Ok {A} value.
Arguments Raise {A} message.

(** ** Wire data of the language-generation service *)

(** Keyword arguments of a tool request ([content_block.input]): a mapping
    from parameter names to JSON scalars. *)
Inductive Value : Type :=
| VString (s : string)
| VInt (n : Z).

Definition ToolInput : Type := list (string * Value).

(** A block of a model response: [{type: "text", text}] or
    [{type: "tool_use", name, input, id}]. *)
Inductive ContentBlock : Type :=
| TextBlock (text : string)
| ToolUseBlock (name : string) (input : ToolInput) (id : string).

Record Response : Type := {
  stop_reason : string;
  content : list ContentBlock
}.

(** One entry of the batched answer to the tool requests of a round:
    [{"type": "tool_result", "tool_use_id": ..., "content": ...}]. *)
Record ToolResult : Type := {
  tool_use_id : string;
  result_content : string
}.

Inductive Role : Type := user | assistant.

(** The three shapes of [content] the orchestrator puts in a message: the
    query text, the blocks of a model response, a list of tool results. *)
Inductive MessageContent : Type :=
| PlainText (text : string)
| Blocks (blocks : list ContentBlock)
| ToolResults (results : list ToolResult).

Record Message : Type := {
  role : Role;
  message_content : MessageContent
}.

(** A tool definition is a dictionary; the [name] key may be missing. *)
Record ToolDefinition : Type := {
  tool_name : option string;
  description : string;
  required : list string
}.

(** Keyword arguments of [client.messages.create]: [base_params] (model,
    temperature, max_tokens) plus what each call site adds.  An absent key
    is [None]. *)
Record ApiParams : Type := {
  model_id : string;
  temperature : Z;
  max_tokens : Z;
  messages : list Message;
  system : string;
  tools : option (list ToolDefinition);
  tool_choice : option string
}.

(** ** History of external calls *)

Inductive Event : Type :=
| ModelCall (params : ApiParams) (outcome : Outcome Response)
| ToolBatch
| ToolCall (name : string) (input : ToolInput) (outcome : Outcome string).

Definition Trace : Type := list Event.

(** [client.messages.create] and [tool_manager.execute_tool], as functions of
    the history so far. *)
Definition Client : Type := Trace -> ApiParams -> Outcome Response.
Definition ToolExecutor : Type := Trace -> string -> ToolInput -> Outcome string.

Module AIGenerator.

(** The instance: [SYSTEM_PROMPT] (a class constant, its text is not
    reproduced), the client and the model name of [__init__]. *)
Record t : Type := {
  SYSTEM_PROMPT : string;
  client : Client;
  model : string
}.

Definition newline : string := String (ascii_of_nat 10) EmptyString.

Definition empty_response_text : string :=
  "I received an empty response from the AI.".

Definition no_final_response_text : string :=
  "I've completed my analysis but couldn't provide a final response.".

Definition first_round_error_prefix : string :=
  "I encountered an error processing your request: ".

Definition follow_up_error_text : string :=
  "I encountered an error during follow-up processing, but I can provide a partial response based on initial results.".

Definition tool_failure_prefix : string := "Tool execution failed: ".

(** [block.text]: a text block has the attribute, a tool-use block raises
    [AttributeError]. *)
Definition block_text (b : ContentBlock) : Outcome string :=
  match b with
  | TextBlock text => Ok text
  | ToolUseBlock _ _ _ => Raise "'ToolUseBlock' object has no attribute 'text'"
  end.

(** [content_block.type == "tool_use"] *)
Definition is_tool_use (b : ContentBlock) : bool :=
  match b with
  | TextBlock _ => false
  | ToolUseBlock _ _ _ => true
  end.

(** Truthiness of [conversation_history]: neither [None] nor empty. *)
Definition truthy_string (s : option string) : bool :=
  match s with
  | Some (String _ _) => true
  | _ => false
  end.

(** The body of the [for content_block in response.content] loop of
    [_execute_tools_only], with [tool_results] as accumulator. *)
Fixpoint execute_blocks (tool_manager : ToolExecutor) (blocks : list ContentBlock)
    (tool_results : list ToolResult) (tr : Trace) : list ToolResult * Trace :=
  match blocks with
  | [] => (tool_results, tr)
  | TextBlock _ :: rest => execute_blocks tool_manager rest tool_results tr
  | ToolUseBlock name input id :: rest =>
      let outcome := tool_manager tr name input in
      let tool_result :=
        match outcome with
        | Ok text => text
        | Raise e => (tool_failure_prefix ++ e)%string
        end in
      execute_blocks tool_manager rest
        (tool_results ++ [{| tool_use_id := id; result_content := tool_result |}])
        (tr ++ [ToolCall name input outcome])
  end.

(** [_execute_tools_only(response, messages, tool_manager)]: returns the
    list [messages] as the in-place appends leave it.  [ToolBatch] marks the
    entry into the function in the trace. *)
Definition _execute_tools_only (response : Response) (msgs : list Message)
    (tool_manager : ToolExecutor) (tr : Trace) : list Message * Trace :=
  let msgs :=
    msgs ++ [{| role := assistant; message_content := Blocks (content response) |}] in
  let '(tool_results, tr) :=
    execute_blocks tool_manager (content response) [] (tr ++ [ToolBatch]) in
  match tool_results with
  | [] => (msgs, tr)
  | _ :: _ =>
      (msgs ++ [{| role := user; message_content := ToolResults tool_results |}], tr)
  end.

(** The text returned by the [except Exception as e] clause of the round
    loop. *)
Definition round_error (rounds_completed : Z) (e : string) : string :=
  if (rounds_completed =? 1)%Z
  then (first_round_error_prefix ++ e)%string
  else follow_up_error_text.

(** Parameters of a round: [base_params], the messages so far, the system
    text, the tools and [tool_choice = {"type": "auto"}]. *)
Definition round_params (self : t) (tool_defs : list ToolDefinition)
    (system_content : string) (msgs : list Message) : ApiParams :=
  {| model_id := model self; temperature := 0; max_tokens := 800;
     messages := msgs; system := system_content;
     tools := Some tool_defs; tool_choice := Some "auto" |}.

(** Parameters without the [tools] and [tool_choice] keys: the fallback call
    and the final call after the last round. *)
Definition plain_params (self : t) (system_content : string)
    (msgs : list Message) : ApiParams :=
  {| model_id := model self; temperature := 0; max_tokens := 800;
     messages := msgs; system := system_content;
     tools := None; tool_choice := None |}.

(** How the [while] loop of [_execute_sequential_rounds] is left: by one of
    its [return] statements, or because its condition became false, with the
    list [messages] as it is then. *)
Inductive LoopExit : Type :=
| Returned (text : string)
| Exhausted (msgs : list Message).

(** [while rounds_completed < max_rounds: ...].  [fuel] bounds the number of
    iterations; [None] means it ran out. *)
Fixpoint rounds_loop (fuel : nat) (self : t) (tool_defs : list ToolDefinition)
    (tool_manager : ToolExecutor) (system_content : string) (max_rounds : Z)
    (msgs : list Message) (rounds_completed : Z) (tr : Trace)
    : option (LoopExit * Trace) :=
  if (rounds_completed <? max_rounds)%Z then
    match fuel with
    | O => None
    | S fuel' =>
        let rounds_completed := (rounds_completed + 1)%Z in
        let api_params := round_params self tool_defs system_content msgs in
        let outcome := client self tr api_params in
        let tr := tr ++ [ModelCall api_params outcome] in
        match outcome with
        | Raise e => Some (Returned (round_error rounds_completed e), tr)
        | Ok response =>
            if stop_reason response =? "tool_use" then
              let '(msgs, tr) := _execute_tools_only response msgs tool_manager tr in
              rounds_loop fuel' self tool_defs tool_manager system_content
                max_rounds msgs rounds_completed tr
            else
              match content response with
              | [] => Some (Returned empty_response_text, tr)
              | b :: _ =>
                  match block_text b with
                  | Ok text => Some (Returned text, tr)
                  | Raise e => Some (Returned (round_error rounds_completed e), tr)
                  end
              end
        end
    end
  else Some (Exhausted msgs, tr).

(** The text the last, tool-less call yields: the first block's text, or
    the fixed sentence when the call raised, came back empty, or reading the
    text raised. *)
Definition final_text (outcome : Outcome Response) : string :=
  match outcome with
  | Ok final_response =>
      match content final_response with
      | b :: _ =>
          match block_text b with
          | Ok text => text
          | Raise _ => no_final_response_text
          end
      | [] => no_final_response_text
      end
  | Raise _ => no_final_response_text
  end.

(** [{"role": "user", "content": query}] *)
Definition query_message (query : string) : Message :=
  {| role := user; message_content := PlainText query |}.

(** [_execute_sequential_rounds]: the round loop on the query, then, if the
    loop was not left by a [return], the final call without tools inside its
    own [try]. *)
Definition _execute_sequential_rounds (self : t) (query : string)
    (tool_defs : list ToolDefinition) (tool_manager : ToolExecutor)
    (system_content : string) (max_rounds : Z) (tr : Trace)
    : option (string * Trace) :=
  match rounds_loop (Z.to_nat max_rounds) self tool_defs tool_manager
          system_content max_rounds [query_message query] 0%Z tr with
  | None => None
  | Some (Returned text, tr) => Some (text, tr)
  | Some (Exhausted msgs, tr) =>
      let final_params := plain_params self system_content msgs in
      let outcome := client self tr final_params in
      Some (final_text outcome, tr ++ [ModelCall final_params outcome])
  end.

(** [system_content]: the prompt, followed by the previous conversation
    when there is one. *)
Definition system_content_of (self : t) (conversation_history : option string)
    : string :=
  if truthy_string conversation_history then
    match conversation_history with
    | Some h =>
        (SYSTEM_PROMPT self ++ newline ++ newline ++ "Previous conversation:"
           ++ newline ++ h)%string
    | None => SYSTEM_PROMPT self
    end
  else SYSTEM_PROMPT self.

(** The fallback of [generate_response]: one call, nothing is caught. *)
Definition simple_response (self : t) (query : string) (system_content : string)
    (tr : Trace) : Outcome string * Trace :=
  let api_params := plain_params self system_content [query_message query] in
  let outcome := client self tr api_params in
  let tr := tr ++ [ModelCall api_params outcome] in
  match outcome with
  | Raise e => (Raise e, tr)
  | Ok response =>
      match content response with
      | [] => (Ok empty_response_text, tr)
      | b :: _ => (block_text b, tr)
      end
  end.

(** [generate_response(query, conversation_history, tools, tool_manager,
    max_rounds)], started on an empty history.  [if tools and tool_manager]
    holds for a non-empty list and a manager other than [None].  The result
    is the returned text or the exception that reaches the caller, with the
    trace of the run; [None] only if the round loop ran out of fuel. *)
Definition generate_response (self : t) (query : string)
    (conversation_history : option string)
    (tool_defs : option (list ToolDefinition))
    (tool_manager : option ToolExecutor) (max_rounds : Z)
    : option (Outcome string * Trace) :=
  let system_content := system_content_of self conversation_history in
  match tool_defs, tool_manager with
  | Some (d :: ds), Some tm =>
      match _execute_sequential_rounds self query (d :: ds) tm system_content
              max_rounds [] with
      | Some (text, tr) => Some (Ok text, tr)
      | None => None
      end
  | _, _ => Some (simple_response self query system_content [])
  end.

(** ** Reading a trace *)

(** The calls to the service, in order, each with its outcome. *)
Definition model_calls (tr : Trace) : list (ApiParams * Outcome Response) :=
  flat_map (fun e => match e with ModelCall p o => [(p, o)] | _ => [] end) tr.

(** The tool dispatches, in order. *)
Definition tool_calls (tr : Trace) : list (string * ToolInput * Outcome string) :=
  flat_map (fun e => match e with ToolCall n i o => [(n, i, o)] | _ => [] end) tr.

(** The number of tool-execution batches. *)
Definition tool_batches (tr : Trace) : nat :=
  length (filter (fun e => match e with ToolBatch => true | _ => false end) tr).

Definition signals_tool_use (o : Outcome Response) : bool :=
  match o with
  | Ok response => stop_reason response =? "tool_use"
  | Raise _ => false
  end.

Definition has_tools (p : ApiParams) : bool :=
  match tools p with
  | Some _ => true
  | None => false
  end.

(** A round that ended in tool use: a call with tool definitions answered
    with the tool-use signal. *)
Definition tool_round (c : ApiParams * Outcome Response) : bool :=
  has_tools (fst c) && signals_tool_use (snd c).

(** The text a round returns when its call did not end in tool use;
    [round] is the value of [rounds_completed] in that round. *)
Definition round_text (round : Z) (o : Outcome Response) : string :=
  match o with
  | Raise e => round_error round e
  | Ok response =>
      match content response with
      | [] => empty_response_text
      | b :: _ =>
          match block_text b with
          | Ok text => text
          | Raise e => round_error round e
          end
      end
  end.

(** What a run of the loop looks like: a block [pre] of rounds that ended
    in tool use, then either the loop condition fails, or one more round
    call returns. *)
Definition loop_shape (self : t) (tool_defs : list ToolDefinition)
    (system_content : string) (max_rounds : Z) (rc : Z) (tr : Trace)
    (exit : LoopExit) (tr' : Trace) (pre : list (ApiParams * Outcome Response))
    : Prop :=
  match exit with
  | Exhausted _ =>
      model_calls tr' = model_calls tr ++ pre /\
      (rc + Z.of_nat (length pre) = Z.max rc max_rounds)%Z /\
      tool_batches tr' = (tool_batches tr + length pre)%nat
  | Returned text =>
      exists tr0 msgs0,
        tr' = tr0 ++ [ModelCall (round_params self tool_defs system_content msgs0)
                        (client self tr0 (round_params self tool_defs system_content msgs0))] /\
        model_calls tr0 = model_calls tr ++ pre /\
        tool_batches tr0 = (tool_batches tr + length pre)%nat /\
        (rc + Z.of_nat (length pre) < max_rounds)%Z /\
        signals_tool_use
          (client self tr0 (round_params self tool_defs system_content msgs0)) = false /\
        text = round_text (rc + Z.of_nat (length pre) + 1)
                 (client self tr0 (round_params self tool_defs system_content msgs0))
  end.

(** What a run of [_execute_sequential_rounds] from the empty history looks
    like: [pre] rounds that ended in tool use, then either one more round
    call that returns, or the final call without tools. *)
Definition run_shape (self : t) (query : string) (tool_defs : list ToolDefinition)
    (tool_manager : ToolExecutor) (system_content : string) (max_rounds : Z)
    (text : string) (tr : Trace) (pre : list (ApiParams * Outcome Response))
    : Prop :=
  (exists tr0 msgs0,
      tr = tr0 ++ [ModelCall (round_params self tool_defs system_content msgs0)
                     (client self tr0 (round_params self tool_defs system_content msgs0))] /\
      model_calls tr0 = pre /\
      tool_batches tr0 = length pre /\
      (Z.of_nat (length pre) < max_rounds)%Z /\
      signals_tool_use
        (client self tr0 (round_params self tool_defs system_content msgs0)) = false /\
      text = round_text (Z.of_nat (length pre) + 1)
               (client self tr0 (round_params self tool_defs system_content msgs0)))
  \/
  (exists tr0 msgs,
      rounds_loop (Z.to_nat max_rounds) self tool_defs tool_manager system_content
        max_rounds [query_message query] 0%Z [] = Some (Exhausted msgs, tr0) /\
      tr = tr0 ++ [ModelCall (plain_params self system_content msgs)
                     (client self tr0 (plain_params self system_content msgs))] /\
      model_calls tr0 = pre /\
      tool_batches tr0 = length pre /\
      length pre = Z.to_nat max_rounds /\
      text = final_text (client self tr0 (plain_params self system_content msgs))).

(** ** Statements about a round *)

(** The tool requests of a response, in the order of its blocks: name,
    input and request id. *)
Definition tool_requests (blocks : list ContentBlock)
    : list (string * ToolInput * string) :=
  flat_map (fun b => match b with
                     | ToolUseBlock name input id => [(name, input, id)]
                     | TextBlock _ => []
                     end) blocks.

(** A request together with the outcome of its dispatch. *)
Definition Dispatch : Type := (string * ToolInput * string) * Outcome string.

Definition dispatch_event (d : Dispatch) : Event :=
  let '((name, input, _), outcome) := d in ToolCall name input outcome.

Definition result_entry (d : Dispatch) : ToolResult :=
  let '((_, _, id), outcome) := d in
  {| tool_use_id := id;
     result_content := match outcome with
                       | Ok text => text
                       | Raise e => (tool_failure_prefix ++ e)%string
                       end |}.

(** Every outcome is what the manager answers when asked, after the
    dispatches before it. *)
Definition answered_by (tool_manager : ToolExecutor) (tr : Trace)
    (ds : list Dispatch) : Prop :=
  forall i name input id outcome,
    nth_error ds i = Some ((name, input, id), outcome) ->
    outcome = tool_manager (tr ++ map dispatch_event (firstn i ds)) name input.

Definition assistant_message (response : Response) : Message :=
  {| role := assistant; message_content := Blocks (content response) |}.

Definition results_message (results : list ToolResult) : Message :=
  {| role := user; message_content := ToolResults results |}.

(** The effect of [_execute_tools_only] on a response: one dispatch per
    request, in order, and the assistant message followed by [tail results]
    appended to the conversation, where [results] has one entry per request,
    with the request's id and the outcome's text. *)
Definition tool_round_effect (tail : list ToolResult -> list Message)
    (response : Response) (msgs : list Message) (tool_manager : ToolExecutor)
    (tr : Trace) : Prop :=
  exists outcomes,
    length outcomes = length (tool_requests (content response)) /\
    answered_by tool_manager (tr ++ [ToolBatch])
      (combine (tool_requests (content response)) outcomes) /\
    _execute_tools_only response msgs tool_manager tr =
      (msgs ++ assistant_message response
         :: tail (map result_entry
                    (combine (tool_requests (content response)) outcomes)),
       tr ++ ToolBatch
         :: map dispatch_event (combine (tool_requests (content response)) outcomes)).

(** The results always travel in one user message. *)
Definition always_one_message (results : list ToolResult) : list Message :=
  [results_message results].

(** The results travel in one user message when there are any. *)
Definition one_message_if_any (results : list ToolResult) : list Message :=
  match results with
  | [] => []
  | _ :: _ => [results_message results]
  end.

(** The text of a response without tool-use blocks: the fixed sentence for
    empty content, else the text of the first block. *)
Definition response_text (response : Response) : option string :=
  match content response with
  | [] => Some empty_response_text
  | TextBlock text :: _ => Some text
  | ToolUseBlock _ _ _ :: _ => None
  end.

(** The run returned the text of response [r], received by call number [k]
    (from 0), and that call is the last event of the run. *)
Definition returned_at (result : Outcome string) (tr : Trace) (k : nat)
    (p : ApiParams) (r : Response) : Prop :=
  (exists text, response_text r = Some text /\ result = Ok text) /\
  length (model_calls tr) = S k /\
  exists tr0, tr = tr0 ++ [ModelCall p (Ok r)].

(** Early termination keyed on the absence of tool-use blocks, for one
    input of [generate_response]. *)
Definition returns_without_tool_blocks (self : t) (query : string)
    (history : option string) (tool_defs : list ToolDefinition)
    (tool_manager : ToolExecutor) (max_rounds : Z) : Prop :=
  exists result tr,
    generate_response self query history (Some tool_defs) (Some tool_manager)
      max_rounds = Some (result, tr) /\
    forall k p r,
      nth_error (model_calls tr) k = Some (p, Ok r) ->
      has_tools p = true ->
      existsb is_tool_use (content r) = false ->
      returned_at result tr k p r.

(** The run is one call without tools, with the query as only message, and
    the result is read off the first block of the answer. *)
Definition single_plain_call (self : t) (query : string) (history : option string)
    (result : Outcome string) (tr : Trace) : Prop :=
  exists p o,
    p = plain_params self (system_content_of self history) [query_message query] /\
    o = client self [] p /\
    tr = [ModelCall p o] /\
    messages p = [query_message query] /\
    tools p = None /\
    (forall r, o = Ok r -> content r = [] -> result = Ok empty_response_text) /\
    (forall r b rest, o = Ok r -> content r = b :: rest -> result = block_text b) /\
    (forall r text rest,
        o = Ok r -> content r = TextBlock text :: rest -> result = Ok text).

(** The blocks of the assistant messages of a conversation, in order. *)
Definition assistant_contents (msgs : list Message) : list (list ContentBlock) :=
  flat_map (fun m => match role m, message_content m with
                     | assistant, Blocks blocks => [blocks]
                     | _, _ => []
                     end) msgs.

(** The contents of the responses received, in order. *)
Definition answered_contents (calls : list (ApiParams * Outcome Response))
    : list (list ContentBlock) :=
  flat_map (fun c => match snd c with
                     | Ok response => [content response]
                     | Raise _ => []
                     end) calls.

(** The run ends with the forced final call: the round loop was left with
    its condition false and the messages [msgs], every call before the last
    carried tools, the last carries none and is sent [msgs]; its outcome
    decides the result (a first block without text also gives the fixed
    sentence).  [msgs] starts with the query and holds one assistant message
    for each response received before, in order. *)
Definition forced_final_shape (self : t) (query : string) (history : option string)
    (tool_defs : list ToolDefinition) (tool_manager : ToolExecutor)
    (max_rounds : Z) (result : Outcome string) (tr : Trace) : Prop :=
  exists tr0 msgs p o,
    rounds_loop (Z.to_nat max_rounds) self tool_defs tool_manager
      (system_content_of self history) max_rounds [query_message query] 0%Z []
      = Some (Exhausted msgs, tr0) /\
    p = plain_params self (system_content_of self history) msgs /\
    o = client self tr0 p /\
    tr = tr0 ++ [ModelCall p o] /\
    messages p = msgs /\
    tools p = None /\
    (exists rest, msgs = query_message query :: rest) /\
    assistant_contents msgs = answered_contents (model_calls tr0) /\
    forallb (fun c => has_tools (fst c)) (model_calls tr0) = true /\
    (forall r text rest,
        o = Ok r -> content r = TextBlock text :: rest -> result = Ok text) /\
    (forall r, o = Ok r -> content r = [] -> result = Ok no_final_response_text) /\
    (forall e, o = Raise e -> result = Ok no_final_response_text) /\
    (forall r b rest,
        o = Ok r -> content r = b :: rest -> is_tool_use b = true ->
        result = Ok no_final_response_text).

(** [needle in haystack] *)
Fixpoint contains (needle haystack : string) : bool :=
  String.prefix needle haystack ||
  match haystack with
  | EmptyString => false
  | String _ rest => contains needle rest
  end.

End AIGenerator.

(** * Tool registry and content-search tool

    [backend/search_tools.py] and [backend/vector_store.py] are not among
    the sources; only their tests are.  The definitions of this part follow
    the specification (sections 3, 4.2, 4.3 and 6) and the tests. *)

Module SearchTools.

(** Modelled from the spec: the line break between the header and the text
    of a rendered match, in the missing tool's formatting code. *)
Definition newline : string := String (ascii_of_nat 10) EmptyString.

(** Modelled from the spec: the SourceAttribution of section 3,
    [{text label, optional link}]; the class that produces it is missing. *)
Record SourceAttribution : Type := {
  text : string;
  link : option string
}.

(** Modelled from the spec: one entry of the [metadata] list of a search
    result (section 6); a match may carry no lesson number (section 4.3).
    The vector store is missing. *)
Record Metadata : Type := {
  course_title : string;
  lesson_number : option Z
}.

(** Modelled from the spec: the answer of the retrieval index's [search]
    (section 6), without the [distances], which no operation reads; the
    vector store is missing. *)
Record SearchResults : Type := {
  documents : list string;
  metadata : list Metadata;
  error : option string
}.

(** Modelled from the spec: the retrieval index as the content-search tool
    consumes it (section 6): [search(query, course_name?, lesson_number?)]
    and [get_lesson_link(course, lesson)]; the vector store is missing. *)
Record VectorStore : Type := {
  search : string -> option string -> option Z -> SearchResults;
  get_lesson_link : string -> Z -> option string
}.

(** Modelled from the spec: how a lesson number appears in a text, in
    decimal; the formatting code of the missing tool. *)
Definition show_number (n : Z) : string := NilZero.string_of_int (Z.to_int n).

(** Modelled from the spec: the [<lesson_number>] part of an attribution
    label (section 4.3); the spec gives no other rule for a match without
    lesson number, an absent number is written the way Python formats it.
    The formatting code of the missing tool. *)
Definition lesson_label (lesson : option Z) : string :=
  match lesson with
  | Some n => show_number n
  | None => "None"
  end.

(** Modelled from the spec: the matches of a result set, each document with
    its metadata, in order (section 4.3, "for each matched document"); the
    missing tool's iteration. *)
Definition matches (results : SearchResults) : list (string * Metadata) :=
  combine (documents results) (metadata results).

(** Modelled from the spec: the SourceAttribution of one match (section
    4.3): text ["<course_title> - Lesson <lesson_number>"], link resolved
    via [get_lesson_link] when a lesson number is present, else no link.
    Part of the missing [CourseSearchTool]. *)
Definition attribution (store : VectorStore) (m : Metadata) : SourceAttribution :=
  {| text := (course_title m ++ " - Lesson " ++ lesson_label (lesson_number m))%string;
     link := match lesson_number m with
             | Some n => get_lesson_link store (course_title m) n
             | None => None
             end |}.

(** Modelled from the spec: the header of a rendered match (section 4.3),
    ["[<course_title> - Lesson <lesson_number>]"], without the lesson clause
    when the match carries no lesson number.  Part of the missing
    [CourseSearchTool]. *)
Definition header (m : Metadata) : string :=
  ("[" ++ course_title m
     ++ match lesson_number m with
        | Some n => " - Lesson " ++ show_number n
        | None => ""
        end
     ++ "]")%string.

(** Modelled from the spec: a rendered match, the header followed by the
    document text (section 4.3).  Part of the missing [CourseSearchTool]. *)
Definition render (m : string * Metadata) : string :=
  (header (snd m) ++ newline ++ fst m)%string.

(** Modelled from the spec: the answer for an empty result set (section
    4.3), with a clause for each filter that was supplied.  Part of the
    missing [CourseSearchTool]. *)
Definition no_content_text (course_name : option string) (lesson : option Z)
    : string :=
  ("No relevant content found"
     ++ match course_name with
        | Some c => " in course '" ++ c ++ "'"
        | None => ""
        end
     ++ match lesson with
        | Some n => " in lesson " ++ show_number n
        | None => ""
        end
     ++ ".")%string.

Module CourseSearchTool.

(** Modelled from the spec: the content-search tool of section 4.3, an
    instance holding its index and the mutable [last_sources] of section 3;
    the class is missing. *)
Record t : Type := {
  store : VectorStore;
  last_sources : list SourceAttribution
}.

(** Modelled from the spec: [execute(query, course_name, lesson_number)] of
    the missing content-search tool (section 4.3).  The returned text is
    the index's error, the no-content sentence, or the rendered matches
    joined by blank lines.  The attributions are overwritten on each call
    (section 3), with one entry per match in the same order (section
    4.3). *)
Definition execute (self : t) (query : string) (course_name : option string)
    (lesson : option Z) : string * t :=
  let results := search (store self) query course_name lesson in
  let self' :=
    {| store := store self;
       last_sources := map (attribution (store self)) (map snd (matches results)) |} in
  match error results with
  | Some e => (e, self')
  | None =>
      match matches results with
      | [] => (no_content_text course_name lesson, self')
      | ms => (String.concat (newline ++ newline) (map render ms), self')
      end
  end.

End CourseSearchTool.

Module ToolManager.

(** Modelled from the spec: the Tool capability (sections 2 and 4.2) as
    the registry sees it: a definition, an [execute] that yields the output
    and, when the tool rewrites its attributions, their new value, and the
    [last_sources] field, which a tool may lack.  The class is missing. *)
Record Tool : Type := {
  get_tool_definition : ToolDefinition;
  execute : ToolInput -> Outcome string * option (list SourceAttribution);
  last_sources : option (list SourceAttribution)
}.

(** Modelled from the spec: the registry state (section 3), the mapping
    from names to tool instances in registration order; the class is
    missing. *)
Definition t : Type := list (string * Tool).

(** Modelled from the spec: the lookup of a name in the missing registry's
    mapping. *)
Fixpoint lookup (name : string) (tools : t) : option Tool :=
  match tools with
  | [] => None
  | (n, tool) :: rest => if n =? name then Some tool else lookup name rest
  end.

(** Modelled from the spec: the assignment [tools[name] = tool] of the
    missing registry; a known name keeps its place, a new one goes last. *)
Fixpoint assign (name : string) (tool : Tool) (tools : t) : t :=
  match tools with
  | [] => [(name, tool)]
  | (n, old) :: rest =>
      if n =? name then (n, tool) :: rest else (n, old) :: assign name tool rest
  end.

(** Modelled from the spec: the assignment [tool.last_sources = sources] on
    an instance of the missing Tool class. *)
Definition with_sources (tool : Tool) (sources : option (list SourceAttribution))
    : Tool :=
  {| get_tool_definition := get_tool_definition tool;
     execute := execute tool;
     last_sources := sources |}.

(** Modelled from the spec: [register(tool)] of the missing registry
    (section 4.2), which fails when the definition has no name; the message
    is the one the tests expect. *)
Definition register_tool (self : t) (tool : Tool) : Outcome t :=
  match tool_name (get_tool_definition tool) with
  | Some (String c rest) => Ok (assign (String c rest) tool self)
  | _ => Raise "Tool must have a 'name' in its definition"
  end.

(** Modelled from the spec: [get_definitions()] of the missing registry
    (section 4.2), in registration order. *)
Definition get_tool_definitions (self : t) : list ToolDefinition :=
  map (fun e => get_tool_definition (snd e)) self.

(** Modelled from the spec: [execute(name, **params)] of the missing
    registry (section 4.2): the tool's output, or the literal
    ["Tool '<name>' not found"] for an unknown name, which is returned, not
    raised. *)
Definition execute_tool (self : t) (name : string) (input : ToolInput)
    : Outcome string * t :=
  match lookup name self with
  | None => (Ok ("Tool '" ++ name ++ "' not found")%string, self)
  | Some tool =>
      match execute tool input with
      | (outcome, Some sources) =>
          (outcome, assign name (with_sources tool (Some sources)) self)
      | (outcome, None) => (outcome, self)
      end
  end.

(** Modelled from the spec: [get_last_sources()] of the missing registry
    (section 4.2): the concatenation, in registration order, of every
    tool's [last_sources]; a tool without the field contributes nothing. *)
Definition get_last_sources (self : t) : list SourceAttribution :=
  flat_map (fun e => match last_sources (snd e) with
                     | Some sources => sources
                     | None => []
                     end) self.

(** Modelled from the spec: [reset_sources()] of the missing registry
    (section 4.2): sets every registered tool's [last_sources] to empty. *)
Definition reset_sources (self : t) : t :=
  map (fun e => (fst e, with_sources (snd e) (Some []))) self.

End ToolManager.

End SearchTools.

(** * Concrete collaborators used to exercise the statements *)

Module Examples.
Import AIGenerator.

Definition search_definition : ToolDefinition :=
  {| tool_name := Some "search_course_content";
     description := "Search course materials";
     required := ["query"] |}.

Definition search_request : ContentBlock :=
  ToolUseBlock "search_course_content" [("query", VString "test")] "tool_1".

Definition generator (c : Client) : t :=
  {| SYSTEM_PROMPT := "You are an AI assistant specialized in course materials.";
     client := c;
     model := "claude-sonnet-4-20250514" |}.

Definition steady_manager : ToolExecutor := fun _ _ _ => Ok "Tool result".

Definition failing_manager : ToolExecutor :=
  fun _ _ _ => Raise "index offline".

Definition answer (text : string) : Outcome Response :=
  Ok {| stop_reason := "end_turn"; content := [TextBlock text] |}.

(** Asks for a search whenever tools are offered. *)
Definition eager_client : Client :=
  fun _ p =>
    if has_tools p
    then Ok {| stop_reason := "tool_use"; content := [search_request] |}
    else answer "Final answer".

(** Answers directly. *)
Definition direct_client : Client := fun _ _ => answer "Paris".

(** Signals tool use without any tool-use block whenever tools are
    offered. *)
Definition signal_only_response : Response :=
  {| stop_reason := "tool_use"; content := [TextBlock "Let me check."] |}.

Definition signal_only_client : Client :=
  fun _ p => if has_tools p then Ok signal_only_response else answer "Done.".

(** Every call fails. *)
Definition broken_client : Client := fun _ _ => Raise "API Error".

(** The first call asks for a search, every later call fails. *)
Definition flaky_client : Client :=
  fun tr _ =>
    match model_calls tr with
    | [] => Ok {| stop_reason := "tool_use"; content := [search_request] |}
    | _ :: _ => Raise "API Error in round 2"
    end.

(** The first call asks for a search, every later call answers. *)
Definition one_search_client : Client :=
  fun tr _ =>
    match model_calls tr with
    | [] => Ok {| stop_reason := "tool_use"; content := [search_request] |}
    | _ :: _ => answer "Final answer"
    end.

(** What the scenarios observe of a run: the result, the number of model
    calls and the number of tool executions. *)
Definition observe (run : option (Outcome string * Trace))
    : option (Outcome string * nat * nat) :=
  match run with
  | Some (result, tr) =>
      Some (result, length (model_calls tr), length (tool_calls tr))
  | None => None
  end.

(** Two requests in one response, around a text block. *)
Definition two_requests : Response :=
  {| stop_reason := "tool_use";
     content := [ToolUseBlock "tool_1" [("param1", VString "value1")] "tool_1_id";
                 TextBlock "and then";
                 ToolUseBlock "tool_2" [("param2", VInt 2)] "tool_2_id"] |}.

(** An index with two matches for every query, and a link for lesson 1. *)
Definition sample_store : SearchTools.VectorStore :=
  {| SearchTools.search := fun _ _ _ =>
       {| SearchTools.documents := ["Document 1 content"; "Document 2 content"];
          SearchTools.metadata :=
            [{| SearchTools.course_title := "Test Course";
                SearchTools.lesson_number := Some 1%Z |};
             {| SearchTools.course_title := "Test Course";
                SearchTools.lesson_number := None |}];
          SearchTools.error := None |};
     SearchTools.get_lesson_link := fun _ n =>
       if (n =? 1)%Z then Some "http://example.com/lesson1" else None |}.

(** A tool that still holds an attribution from an earlier query. *)
Definition used_search_tool : SearchTools.CourseSearchTool.t :=
  {| SearchTools.CourseSearchTool.store := sample_store;
     SearchTools.CourseSearchTool.last_sources :=
       [{| SearchTools.text := "Old Course - Lesson 7"; SearchTools.link := None |}] |}.

End Examples.

(** * The rounds of a run, and the single-round path

    Definitions used to describe whole runs of the orchestrator: the rounds
    a run went through, the conversation they leave, and the older
    single-round function [_handle_tool_execution] of the same class. *)

Module Rounds.
Import AIGenerator.

(** One completed round: the response that asked for tools and the
    dispatches made for it. *)
Record Round : Type := {
  round_response : Response;
  round_dispatches : list Dispatch
}.

(** The messages a round appends to the conversation. *)
Definition round_tail (rd : Round) : list Message :=
  assistant_message (round_response rd)
    :: one_message_if_any (map result_entry (round_dispatches rd)).

(** The events of a round whose call was sent [msgs]. *)
Definition round_events (self : t) (tool_defs : list ToolDefinition)
    (system_content : string) (msgs : list Message) (rd : Round) : Trace :=
  ModelCall (round_params self tool_defs system_content msgs)
            (Ok (round_response rd))
    :: ToolBatch :: map dispatch_event (round_dispatches rd).

(** The events of successive rounds, the first of which was sent [msgs]. *)
Fixpoint rounds_trace (self : t) (tool_defs : list ToolDefinition)
    (system_content : string) (msgs : list Message) (rounds : list Round)
    : Trace :=
  match rounds with
  | [] => []
  | rd :: rest =>
      round_events self tool_defs system_content msgs rd
        ++ rounds_trace self tool_defs system_content (msgs ++ round_tail rd) rest
  end.

(** The conversation after the rounds. *)
Definition conversation (msgs : list Message) (rounds : list Round)
    : list Message :=
  msgs ++ flat_map round_tail rounds.

(** The rounds are what the collaborators really answered, starting from
    the conversation [msgs] and the history [tr]: each response is the
    client's answer and signals tool use, the dispatches are the requests of
    the response, in order, with the manager's answers. *)
Fixpoint genuine (self : t) (tool_defs : list ToolDefinition)
    (system_content : string) (tool_manager : ToolExecutor)
    (msgs : list Message) (tr : Trace) (rounds : list Round) : Prop :=
  match rounds with
  | [] => True
  | rd :: rest =>
      client self tr (round_params self tool_defs system_content msgs)
        = Ok (round_response rd) /\
      signals_tool_use (Ok (round_response rd)) = true /\
      map fst (round_dispatches rd) = tool_requests (content (round_response rd)) /\
      answered_by tool_manager
        (tr ++ [ModelCall (round_params self tool_defs system_content msgs)
                  (Ok (round_response rd)); ToolBatch])
        (round_dispatches rd) /\
      genuine self tool_defs system_content tool_manager
        (msgs ++ round_tail rd)
        (tr ++ round_events self tool_defs system_content msgs rd) rest
  end.

(** The parameters of the last call of a run: without tools when the round
    budget was used up, with them otherwise. *)
Definition last_params (self : t) (tool_defs : list ToolDefinition)
    (system_content : string) (forced : bool) (msgs : list Message)
    : ApiParams :=
  if forced then plain_params self system_content msgs
  else round_params self tool_defs system_content msgs.

(** A run with tools: completed rounds, then one last call, which is sent
    the conversation the rounds left. *)
Definition run_grammar (self : t) (query : string) (history : option string)
    (tool_defs : list ToolDefinition) (tool_manager : ToolExecutor)
    (max_rounds : Z) (text : string) (tr : Trace) : Prop :=
  exists rounds forced,
    genuine self tool_defs (system_content_of self history) tool_manager
      [query_message query] [] rounds /\
    tr = rounds_trace self tool_defs (system_content_of self history)
           [query_message query] rounds
         ++ [ModelCall
               (last_params self tool_defs (system_content_of self history)
                  forced (conversation [query_message query] rounds))
               (client self
                  (rounds_trace self tool_defs (system_content_of self history)
                     [query_message query] rounds)
                  (last_params self tool_defs (system_content_of self history)
                     forced (conversation [query_message query] rounds)))] /\
    (forced = true ->
     length rounds = Z.to_nat max_rounds /\
     text = final_text
              (client self
                 (rounds_trace self tool_defs (system_content_of self history)
                    [query_message query] rounds)
                 (last_params self tool_defs (system_content_of self history)
                    forced (conversation [query_message query] rounds)))) /\
    (forced = false ->
     (Z.of_nat (length rounds) < max_rounds)%Z /\
     signals_tool_use
       (client self
          (rounds_trace self tool_defs (system_content_of self history)
             [query_message query] rounds)
          (last_params self tool_defs (system_content_of self history)
             forced (conversation [query_message query] rounds))) = false /\
     text = round_text (Z.of_nat (length rounds) + 1)
              (client self
                 (rounds_trace self tool_defs (system_content_of self history)
                    [query_message query] rounds)
                 (last_params self tool_defs (system_content_of self history)
                    forced (conversation [query_message query] rounds)))).

(** The name and input of every request a call was answered with, when the
    call carried tools and was answered with the tool-use signal. *)
Definition requested (c : ApiParams * Outcome Response)
    : list (string * ToolInput) :=
  match snd c with
  | Ok response =>
      if tool_round c
      then map (fun q => (fst (fst q), snd (fst q))) (tool_requests (content response))
      else []
  | Raise _ => []
  end.

(** A message the orchestrator appends: an assistant message with the blocks
    of a response, or a user message with at least one tool result. *)
Definition appended_message (m : Message) : bool :=
  match role m, message_content m with
  | assistant, Blocks _ => true
  | user, ToolResults (_ :: _) => true
  | _, _ => false
  end.

(** Roles that start with the user and then alternate, ending with the
    user: what the service accepts as a conversation to answer. *)
Fixpoint alternating (roles : list Role) : bool :=
  match roles with
  | [user] => true
  | user :: assistant :: rest => alternating rest
  | _ => false
  end.

(** The two entries of the dictionary [base_params] that
    [_handle_tool_execution] reads. *)
Record BaseParams : Type := {
  base_messages : list Message;
  base_system : string
}.

(** [_handle_tool_execution(initial_response, base_params, tool_manager)]:
    the tools of the response are executed as in [_execute_tools_only], on a
    copy of the messages (the batch is marked in the trace in the same way),
    then one call without tools is made and the text of its first block
    returned.  Nothing around that call is caught: its
    exception, and the [IndexError] of [content[0]] on empty content, reach
    the caller. *)
Definition _handle_tool_execution (self : t) (initial_response : Response)
    (base_params : BaseParams) (tool_manager : ToolExecutor) (tr : Trace)
    : Outcome string * Trace :=
  let msgs := base_messages base_params in
  let msgs :=
    msgs ++ [{| role := assistant;
                message_content := Blocks (content initial_response) |}] in
  let '(tool_results, tr) :=
    execute_blocks tool_manager (content initial_response) [] (tr ++ [ToolBatch]) in
  let msgs :=
    match tool_results with
    | [] => msgs
    | _ :: _ =>
        msgs ++ [{| role := user; message_content := ToolResults tool_results |}]
    end in
  let final_params := plain_params self (base_system base_params) msgs in
  let outcome := client self tr final_params in
  let tr := tr ++ [ModelCall final_params outcome] in
  match outcome with
  | Raise e => (Raise e, tr)
  | Ok final_response =>
      match content final_response with
      | [] => (Raise "list index out of range", tr)
      | b :: _ => (block_text b, tr)
      end
  end.

End Rounds.

(** * Properties of the orchestrator *)

Module AIGeneratorFacts.
Import AIGenerator.

Lemma model_calls_app (a b : Trace) :
  model_calls (a ++ b) = model_calls a ++ model_calls b.
Proof. unfold model_calls. now rewrite flat_map_app. Qed.

Lemma tool_batches_app (a b : Trace) :
  tool_batches (a ++ b) = (tool_batches a + tool_batches b)%nat.
Proof. unfold tool_batches. now rewrite filter_app, length_app. Qed.

(** The inner loop only appends tool dispatches to the trace. *)
Lemma execute_blocks_trace tm blocks :
  forall acc tr,
    model_calls (snd (execute_blocks tm blocks acc tr)) = model_calls tr /\
    tool_batches (snd (execute_blocks tm blocks acc tr)) = tool_batches tr.
Proof.
  induction blocks as [|b rest IH]; intros acc tr; [now split|].
  destruct b as [text|name input id]; cbn [execute_blocks]; [apply IH|].
  destruct (IH (acc ++ [{| tool_use_id := id;
                           result_content :=
                             match tm tr name input with
                             | Ok text => text
                             | Raise e => (tool_failure_prefix ++ e)%string
                             end |}])
               (tr ++ [ToolCall name input (tm tr name input)])) as [Hm Hb].
  rewrite Hm, Hb, model_calls_app, tool_batches_app. cbn.
  rewrite app_nil_r. split; [reflexivity | lia].
Qed.

Lemma execute_tools_only_trace response msgs tm tr :
  model_calls (snd (_execute_tools_only response msgs tm tr)) = model_calls tr /\
  tool_batches (snd (_execute_tools_only response msgs tm tr)) = S (tool_batches tr).
Proof.
  unfold _execute_tools_only.
  destruct (execute_blocks_trace tm (content response) [] (tr ++ [ToolBatch]))
    as [Hm Hb].
  destruct (execute_blocks tm (content response) [] (tr ++ [ToolBatch]))
    as [results tr'] eqn:E.
  cbn [snd] in Hm, Hb.
  assert (model_calls tr' = model_calls tr /\ tool_batches tr' = S (tool_batches tr)).
  { rewrite Hm, Hb, model_calls_app, tool_batches_app. cbn.
    rewrite app_nil_r. split; [reflexivity | lia]. }
  destruct results; cbn [snd]; assumption.
Qed.

(** ** One round of tool execution *)

Lemma execute_blocks_dispatches tm blocks :
  forall acc tr,
  exists outcomes,
    length outcomes = length (tool_requests blocks) /\
    answered_by tm tr (combine (tool_requests blocks) outcomes) /\
    execute_blocks tm blocks acc tr =
      (acc ++ map result_entry (combine (tool_requests blocks) outcomes),
       tr ++ map dispatch_event (combine (tool_requests blocks) outcomes)).
Proof.
  induction blocks as [|b rest IH]; intros acc tr.
  - exists []. cbn. rewrite !app_nil_r. repeat split.
    intros i ? ? ? ? Hi. now destruct i.
  - destruct b as [text|name input id]; cbn [execute_blocks]; [apply IH|].
    destruct (IH (acc ++ [{| tool_use_id := id;
                             result_content :=
                               match tm tr name input with
                               | Ok text => text
                               | Raise e => (tool_failure_prefix ++ e)%string
                               end |}])
                 (tr ++ [ToolCall name input (tm tr name input)]))
      as (outcomes & Hlen & Hans & Hrun).
    exists (tm tr name input :: outcomes).
    change (tool_requests (ToolUseBlock name input id :: rest))
      with ((name, input, id) :: tool_requests rest).
    cbn [combine length map result_entry dispatch_event].
    split; [now rewrite Hlen|]. split.
    + intros i n inp rid o Hi. destruct i as [|i]; cbn in Hi.
      * injection Hi as <- <- _ <-. cbn. now rewrite app_nil_r.
      * cbn [firstn map dispatch_event]. rewrite (Hans _ _ _ _ _ Hi).
        now rewrite <- app_assoc.
    + rewrite Hrun, <- !app_assoc. reflexivity.
Qed.

Lemma assistant_contents_app (a b : list Message) :
  assistant_contents (a ++ b) = assistant_contents a ++ assistant_contents b.
Proof. unfold assistant_contents. now rewrite flat_map_app. Qed.

Lemma answered_contents_app (a b : list (ApiParams * Outcome Response)) :
  answered_contents (a ++ b) = answered_contents a ++ answered_contents b.
Proof. unfold answered_contents. now rewrite flat_map_app. Qed.

(** A round appends the assistant message of its response and nothing else
    from the assistant. *)
Lemma execute_tools_only_messages response msgs tm tr :
  exists rest,
    fst (_execute_tools_only response msgs tm tr)
      = msgs ++ assistant_message response :: rest /\
    assistant_contents rest = [].
Proof.
  unfold _execute_tools_only.
  destruct (execute_blocks_dispatches tm (content response) [] (tr ++ [ToolBatch]))
    as (outcomes & _ & _ & Hrun).
  rewrite Hrun. cbn [app]. fold (assistant_message response).
  destruct (map result_entry _) as [|entry entries]; cbn [fst].
  - exists []. split; reflexivity.
  - eexists [_]. rewrite <- app_assoc. split; reflexivity.
Qed.

Section RoundLoop.

Variables (self : t) (tool_defs : list ToolDefinition) (tm : ToolExecutor)
          (system_content : string) (max_rounds : Z).

(** A round whose call is answered with the tool-use signal hands the
    response to [_execute_tools_only] and goes on with the next round. *)
Lemma rounds_loop_tool_use_step fuel msgs rc tr response :
  (rc < max_rounds)%Z ->
  client self tr (round_params self tool_defs system_content msgs) = Ok response ->
  signals_tool_use (Ok response) = true ->
  rounds_loop (S fuel) self tool_defs tm system_content max_rounds msgs rc tr
  = rounds_loop fuel self tool_defs tm system_content max_rounds
      (fst (_execute_tools_only response msgs tm
              (tr ++ [ModelCall (round_params self tool_defs system_content msgs)
                        (Ok response)])))
      (rc + 1)
      (snd (_execute_tools_only response msgs tm
              (tr ++ [ModelCall (round_params self tool_defs system_content msgs)
                        (Ok response)]))).
Proof.
  intros Hlt Hcall Hsignal. cbn [rounds_loop].
  destruct (Z.ltb_spec rc max_rounds); [|lia].
  rewrite Hcall. cbn [signals_tool_use] in Hsignal. rewrite Hsignal.
  now destruct (_execute_tools_only response msgs tm _).
Qed.

(** Enough fuel: the loop needs one unit per remaining round. *)
Lemma rounds_loop_total :
  forall fuel msgs rc tr,
    (Z.to_nat (max_rounds - rc) <= fuel)%nat ->
    exists exit tr',
      rounds_loop fuel self tool_defs tm system_content max_rounds msgs rc tr
        = Some (exit, tr').
Proof.
  induction fuel as [|fuel IH]; intros msgs rc tr Hfuel; cbn [rounds_loop].
  - destruct (Z.ltb_spec rc max_rounds); [lia | eauto].
  - destruct (Z.ltb_spec rc max_rounds); [|eauto].
    destruct (client self tr (round_params self tool_defs system_content msgs))
      as [response|e]; [|eauto].
    destruct (stop_reason response =? "tool_use").
    + destruct (_execute_tools_only response msgs tm _) as [msgs' tr'].
      apply IH. lia.
    + destruct (content response) as [|b rest]; [eauto|].
      destruct (block_text b); eauto.
Qed.

Lemma rounds_loop_shape :
  forall fuel msgs rc tr exit tr',
    rounds_loop fuel self tool_defs tm system_content max_rounds msgs rc tr
      = Some (exit, tr') ->
    exists pre,
      forallb tool_round pre = true /\
      Forall (fun c => tools (fst c) = Some tool_defs) pre /\
      loop_shape self tool_defs system_content max_rounds rc tr exit tr' pre.
Proof.
  induction fuel as [|fuel IH]; intros msgs rc tr exit tr';
    cbn [rounds_loop]; destruct (Z.ltb_spec rc max_rounds) as [Hlt|Hge];
    try discriminate.
  - intros [= <- <-]. exists []. cbn. rewrite !app_nil_r. repeat split; auto; lia.
  - set (p := round_params self tool_defs system_content msgs).
    destruct (client self tr p) as [response|e] eqn:Hcall.
    + destruct (stop_reason response =? "tool_use") eqn:Hstop.
      * destruct (execute_tools_only_trace response msgs tm
                    (tr ++ [ModelCall p (Ok response)])) as [Hm Hb].
        destruct (_execute_tools_only response msgs tm _) as [msgs1 tr1].
        cbn [snd] in Hm, Hb. intros Hrun.
        destruct (IH _ _ _ _ _ Hrun) as (pre & Hall & Hdefs & Hshape).
        exists ((p, Ok response) :: pre). split; [|split].
        -- cbn [forallb]. rewrite Hall. unfold tool_round, has_tools. cbn.
           now rewrite Hstop.
        -- constructor; [reflexivity | assumption].
        -- unfold loop_shape in *. destruct exit as [text|msgs'].
           ++ destruct Hshape as (tr0 & msgs0 & Htr & Hmc & Htb & Hrc & Hsig & Htext).
              rewrite Hm, model_calls_app in Hmc.
              rewrite Hb, tool_batches_app in Htb. cbn in Hmc, Htb.
              exists tr0, msgs0. cbn [length].
              rewrite <- app_assoc in Hmc. cbn in Hmc.
              replace (rc + Z.of_nat (S (length pre)))%Z
                with (rc + 1 + Z.of_nat (length pre))%Z by lia.
              repeat split; auto; lia.
           ++ destruct Hshape as (Hmc & Hrc & Htb).
              rewrite Hm, model_calls_app in Hmc.
              rewrite Hb, tool_batches_app in Htb. cbn in Hmc, Htb.
              rewrite <- app_assoc in Hmc. cbn in Hmc. cbn [length].
              repeat split; auto; lia.
      * intros Hrun. exists []. split; [reflexivity|]. split; [constructor|].
        assert (exit = Returned (round_text (rc + 1) (Ok response)) /\
                tr' = tr ++ [ModelCall p (Ok response)]) as [-> ->].
        { cbn [round_text]. destruct (content response) as [|b rest].
          - now inversion Hrun.
          - destruct (block_text b); now inversion Hrun. }
        exists tr, msgs. fold p. rewrite Hcall. cbn [length Z.of_nat].
        rewrite !app_nil_r, Z.add_0_r, Nat.add_0_r. cbn [signals_tool_use].
        repeat split; auto.
    + intros [= <- <-]. exists []. split; [reflexivity|]. split; [constructor|].
      exists tr, msgs. fold p. rewrite Hcall. cbn [length Z.of_nat].
      rewrite !app_nil_r, Z.add_0_r, Nat.add_0_r. repeat split; auto.
  - intros [= <- <-]. exists []. cbn. rewrite !app_nil_r. repeat split; auto; lia.
Qed.

(** The messages the loop is left with extend those it started with, by one
    assistant message per response received in between. *)
Lemma rounds_loop_history :
  forall fuel msgs rc tr msgs' tr',
    rounds_loop fuel self tool_defs tm system_content max_rounds msgs rc tr
      = Some (Exhausted msgs', tr') ->
    (exists rest, msgs' = msgs ++ rest) /\
    (assistant_contents msgs = answered_contents (model_calls tr) ->
     assistant_contents msgs' = answered_contents (model_calls tr')).
Proof.
  induction fuel as [|fuel IH]; intros msgs rc tr msgs' tr';
    cbn [rounds_loop]; destruct (Z.ltb_spec rc max_rounds) as [Hlt|Hge];
    try discriminate;
    try (intros [= <- <-]; split; [exists []; now rewrite app_nil_r | tauto]).
  set (p := round_params self tool_defs system_content msgs).
  destruct (client self tr p) as [response|e] eqn:Hcall; [|discriminate].
  destruct (stop_reason response =? "tool_use").
  - destruct (execute_tools_only_trace response msgs tm
                (tr ++ [ModelCall p (Ok response)])) as [Hm _].
    destruct (execute_tools_only_messages response msgs tm
                (tr ++ [ModelCall p (Ok response)])) as (rest & Hmsgs & Hrest).
    destruct (_execute_tools_only response msgs tm _) as [msgs1 tr1].
    cbn [fst snd] in Hm, Hmsgs. intros Hrun.
    destruct (IH _ _ _ _ _ Hrun) as [[rest' Hext] Hinv]. split.
    + exists (assistant_message response :: rest ++ rest').
      rewrite Hext, Hmsgs, <- app_assoc. reflexivity.
    + intros Hstart. apply Hinv.
      rewrite Hmsgs, Hm, model_calls_app, assistant_contents_app,
        answered_contents_app, Hstart.
      f_equal.
      change (assistant_contents (assistant_message response :: rest))
        with (content response :: assistant_contents rest).
      now rewrite Hrest.
  - destruct (content response) as [|b rest]; [discriminate|].
    destruct (block_text b); discriminate.
Qed.

(** The loop run by [_execute_sequential_rounds] never runs out of fuel, so
    the function always returns a text. *)
Lemma sequential_rounds_shape query :
  exists text tr pre,
    _execute_sequential_rounds self query tool_defs tm system_content max_rounds []
      = Some (text, tr) /\
    forallb tool_round pre = true /\
    Forall (fun c => tools (fst c) = Some tool_defs) pre /\
    run_shape self query tool_defs tm system_content max_rounds text tr pre.
Proof.
  unfold _execute_sequential_rounds.
  destruct (rounds_loop_total (Z.to_nat max_rounds) [query_message query] 0 [])
    as (exit & tr0 & Hrun); [lia|].
  destruct (rounds_loop_shape _ _ _ _ _ _ Hrun) as (pre & Hall & Hdefs & Hshape).
  rewrite Hrun. unfold loop_shape in Hshape. destruct exit as [text|msgs].
  - destruct Hshape as (tr1 & msgs0 & Htr & Hmc & Htb & Hrc & Hsig & Htext).
    cbn in Hmc, Htb, Hrc, Htext.
    exists text, tr0, pre. repeat split; auto.
    left. exists tr1, msgs0. repeat split; auto.
  - destruct Hshape as (Hmc & Hrc & Htb). cbn in Hmc, Htb, Hrc.
    eexists _, _, pre. split; [reflexivity|]. repeat split; auto.
    right. exists tr0, msgs. repeat split; auto. lia.
Qed.

End RoundLoop.

(** The same for [generate_response] when tools and a manager are given. *)
Lemma generate_response_shape self query history d ds tm max_rounds :
  exists text tr pre,
    generate_response self query history (Some (d :: ds)) (Some tm) max_rounds
      = Some (Ok text, tr) /\
    forallb tool_round pre = true /\
    Forall (fun c => tools (fst c) = Some (d :: ds)) pre /\
    run_shape self query (d :: ds) tm (system_content_of self history) max_rounds
      text tr pre.
Proof.
  destruct (sequential_rounds_shape self (d :: ds) tm
              (system_content_of self history) max_rounds query)
    as (text & tr & pre & Hrun & H).
  exists text, tr, pre. split; [|exact H].
  unfold generate_response. now rewrite Hrun.
Qed.

(** ** Lists of calls *)

Lemma tools_of_rounds (defs : list ToolDefinition)
    (pre : list (ApiParams * Outcome Response)) :
  Forall (fun c => tools (fst c) = Some defs) pre ->
  map (fun c => tools (fst c)) pre = repeat (Some defs) (length pre).
Proof.
  induction 1 as [|c pre Hc _ IH]; cbn; [reflexivity|]. now rewrite Hc, IH.
Qed.

Lemma tool_rounds_all (pre : list (ApiParams * Outcome Response)) :
  forallb tool_round pre = true -> filter tool_round pre = pre.
Proof.
  induction pre as [|c pre IH]; cbn; [reflexivity|].
  intros [Hc Hpre]%andb_prop. now rewrite Hc, IH.
Qed.

Lemma nth_error_rounds (pre : list (ApiParams * Outcome Response)) k c :
  forallb tool_round pre = true ->
  nth_error pre k = Some c -> tool_round c = true.
Proof.
  intros Hall Hk. rewrite forallb_forall in Hall.
  apply Hall. eapply nth_error_In, Hk.
Qed.

(** In a run made of the rounds [pre] and one last call [c], call number
    [k] is either one of the rounds or the last call. *)
Lemma nth_error_last_call (pre : list (ApiParams * Outcome Response)) c k c' :
  nth_error (pre ++ [c]) k = Some c' ->
  nth_error pre k = Some c' \/ (k = length pre /\ c' = c).
Proof.
  intros Hk. destruct (Nat.lt_ge_cases k (length pre)) as [Hlt|Hge].
  - left. now rewrite nth_error_app1 in Hk.
  - right. rewrite nth_error_app2 in Hk by assumption.
    destruct (k - length pre)%nat as [|n] eqn:E.
    + cbn in Hk. split; [lia | congruence].
    + cbn in Hk. now destruct n.
Qed.

(** ** What the run of [generate_response] looks like, claim by claim *)

(** C1: when tools and a manager are given, [max_rounds = N >= 1], and the
    model answers every call that carries tool definitions with the tool-use
    signal, [generate_response] returns after exactly N calls with the tool
    definitions followed by exactly one call without them (N+1 calls in
    all), and exactly N tool-execution batches. *)
Theorem always_tool_use_call_count self query history d ds tm max_rounds :
  (1 <= max_rounds)%Z ->
  (forall tr p, has_tools p = true -> signals_tool_use (client self tr p) = true) ->
  exists text tr,
    generate_response self query history (Some (d :: ds)) (Some tm) max_rounds
      = Some (Ok text, tr) /\
    map (fun c => tools (fst c)) (model_calls tr)
      = repeat (Some (d :: ds)) (Z.to_nat max_rounds) ++ [None] /\
    length (model_calls tr) = S (Z.to_nat max_rounds) /\
    tool_batches tr = Z.to_nat max_rounds.
Proof.
  intros Hn Heager.
  destruct (generate_response_shape self query history d ds tm max_rounds)
    as (text & tr & pre & Hrun & Hall & Hdefs & [Hearly|Hfinal]).
  - destruct Hearly as (tr0 & msgs0 & _ & _ & _ & _ & Hsig & _).
    rewrite Heager in Hsig by reflexivity. discriminate.
  - destruct Hfinal as (tr0 & msgs & _ & -> & Hmc & Htb & Hlen & _).
    exists text, (tr0 ++ [ModelCall (plain_params self (system_content_of self history) msgs)
                           (client self tr0
                              (plain_params self (system_content_of self history) msgs))]).
    split; [exact Hrun|].
    rewrite model_calls_app, tool_batches_app, Hmc, Htb, map_app, length_app.
    rewrite (tools_of_rounds (d :: ds)) by assumption.
    rewrite Hlen. cbn. repeat split; lia.
Qed.

(** C2, amended: for every round k <= max_rounds, if the response of round
    k has a stop reason other than "tool_use" and carries no tool-use block,
    [generate_response] returns that response's text right after round k (the
    fixed sentence "I received an empty response from the AI." for empty
    content): the call of round k is the last event of the run, so no further
    model call is made and no tool is executed in that round. *)
Theorem early_return_without_tool_use self query history d ds tm max_rounds :
  exists result tr,
    generate_response self query history (Some (d :: ds)) (Some tm) max_rounds
      = Some (result, tr) /\
    forall k p r,
      nth_error (model_calls tr) k = Some (p, Ok r) ->
      has_tools p = true ->
      existsb is_tool_use (content r) = false ->
      signals_tool_use (Ok r) = false ->
      returned_at result tr k p r /\ (Z.of_nat (S k) <= max_rounds)%Z.
Proof.
  destruct (generate_response_shape self query history d ds tm max_rounds)
    as (text & tr & pre & Hrun & Hall & Hdefs & Hshape).
  exists (Ok text), tr. split; [exact Hrun|].
  intros k p r Hk Htools Hblocks Hstop.
  destruct Hshape as [(tr0 & msgs0 & Htr & Hmc & Htb & Hrc & Hsig & Htext)
                     |(tr0 & msgs & _ & Htr & Hmc & _)];
    rewrite Htr, model_calls_app, Hmc in Hk; cbn in Hk;
    apply nth_error_last_call in Hk as [Hin|[-> Hlast]];
    try (apply nth_error_rounds in Hin; [|assumption];
         unfold tool_round in Hin; cbn [fst snd] in Hin;
         rewrite Hstop, andb_false_r in Hin; discriminate).
  - injection Hlast as Hp Ho. rewrite <- Ho in Htext. rewrite <- Ho, <- Hp in Htr.
    split; [|lia]. unfold returned_at. split; [|split].
    + unfold response_text. cbn [round_text] in Htext.
      destruct (content r) as [|[t|n i id] rest]; cbn in Hblocks, Htext;
        [eexists; split; [reflexivity | now subst]..| discriminate].
    + rewrite Htr, model_calls_app, Hmc, length_app. cbn. lia.
    + now exists tr0.
  - injection Hlast as Hp Ho. rewrite Hp in Htools. discriminate.
Qed.

(** C4: if a model call inside the round loop raises, [generate_response]
    does not raise: it returns a text.  When the failing call is the one of
    round 1 the text is an apology that embeds the exception's message; in any
    later round it is one fixed apology, the same whatever the message, which
    mentions a partial response based on initial results. *)
Theorem model_failure_becomes_text self query history d ds tm max_rounds :
  exists result tr,
    generate_response self query history (Some (d :: ds)) (Some tm) max_rounds
      = Some (result, tr) /\
    (exists text, result = Ok text) /\
    contains "partial response based on initial results" follow_up_error_text
      = true /\
    forall k p e,
      nth_error (model_calls tr) k = Some (p, Raise e) ->
      has_tools p = true ->
      result = Ok (if Nat.eqb k 0
                   then (first_round_error_prefix ++ e)%string
                   else follow_up_error_text).
Proof.
  destruct (generate_response_shape self query history d ds tm max_rounds)
    as (text & tr & pre & Hrun & Hall & Hdefs & Hshape).
  exists (Ok text), tr. split; [exact Hrun|]. split; [now exists text|].
  split; [reflexivity|]. intros k p e Hk Htools.
  destruct Hshape as [(tr0 & msgs0 & Htr & Hmc & Htb & Hrc & Hsig & Htext)
                     |(tr0 & msgs & _ & Htr & Hmc & _)];
    rewrite Htr, model_calls_app, Hmc in Hk; cbn in Hk;
    apply nth_error_last_call in Hk as [Hin|[-> Hlast]];
    try (apply nth_error_rounds in Hin; [|assumption];
         unfold tool_round in Hin; cbn [fst snd signals_tool_use] in Hin;
         rewrite andb_false_r in Hin; discriminate).
  - injection Hlast as Hp Ho. rewrite <- Ho in Htext. cbn [round_text] in Htext.
    subst text. unfold round_error. f_equal.
    destruct (length pre) as [|n]; cbn [Nat.eqb]; [reflexivity|].
    destruct (Z.eqb_spec (Z.of_nat (S n) + 1) 1); [lia | reflexivity].
  - injection Hlast as Hp Ho. rewrite Hp in Htools. discriminate.
Qed.

(** C5: if every round up to [max_rounds] ended in tool use, the run ends
    with one more model call, the only one without tool definitions, whose
    messages are the list accumulated by the round loop.  The result is the
    text of that call's first block when the call succeeds with non-empty
    content, and exactly "I've completed my analysis but couldn't provide a
    final response." when the call raises or comes back with empty content. *)
Theorem forced_final_call self query history d ds tm max_rounds :
  exists result tr,
    generate_response self query history (Some (d :: ds)) (Some tm) max_rounds
      = Some (result, tr) /\
    (length (filter tool_round (model_calls tr)) = Z.to_nat max_rounds ->
     forced_final_shape self query history (d :: ds) tm max_rounds result tr).
Proof.
  destruct (generate_response_shape self query history d ds tm max_rounds)
    as (text & tr & pre & Hrun & Hall & Hdefs & Hshape).
  exists (Ok text), tr. split; [exact Hrun|]. intros Hcount.
  destruct Hshape as [(tr0 & msgs0 & Htr & Hmc & Htb & Hrc & Hsig & Htext)
                     |(tr0 & msgs & Hloop & Htr & Hmc & _ & Hlen & Htext)].
  - exfalso. rewrite Htr, model_calls_app, Hmc, filter_app in Hcount.
    rewrite tool_rounds_all in Hcount by assumption.
    cbn [model_calls flat_map app filter] in Hcount.
    replace (tool_round _) with false in Hcount
      by (unfold tool_round; cbn [fst snd]; now rewrite Hsig, andb_false_r).
    rewrite app_nil_r in Hcount. lia.
  - exists tr0, msgs, (plain_params self (system_content_of self history) msgs),
      (client self tr0 (plain_params self (system_content_of self history) msgs)).
    destruct (rounds_loop_history _ _ _ _ _ _ _ _ _ _ _ Hloop) as [[ext Hext] Hinv].
    repeat split; auto.
    + now exists ext.
    + rewrite Hmc, forallb_forall. intros c Hc.
      rewrite forallb_forall in Hall. specialize (Hall c Hc).
      unfold tool_round in Hall. now apply andb_prop in Hall as [? _].
    + intros r t rest Ho Hc. subst text. rewrite Ho. cbn. now rewrite Hc.
    + intros r Ho Hc. subst text. rewrite Ho. cbn. now rewrite Hc.
    + intros e Ho. subst text. now rewrite Ho.
    + intros r b rest Ho Hc Hb. subst text. rewrite Ho. cbn. rewrite Hc.
      now destruct b.
Qed.

(** ** The fallback without tools *)

Lemma simple_response_single_call self query history :
  single_plain_call self query history
    (fst (simple_response self query (system_content_of self history) []))
    (snd (simple_response self query (system_content_of self history) [])).
Proof.
  unfold single_plain_call, simple_response.
  eexists _, _. split; [reflexivity|]. split; [reflexivity|].
  destruct (client self [] _) as [r|e] eqn:Ho.
  - destruct (content r) as [|b rest] eqn:Hc; cbn [fst snd app];
      (split; [reflexivity|]); (split; [reflexivity|]); (split; [reflexivity|]);
      (split; [|split]).
    + reflexivity.
    + intros r' b' rest' [= <-] Hc'. congruence.
    + intros r' text rest' [= <-] Hc'. congruence.
    + intros r' [= <-] Hc'. congruence.
    + intros r' b' rest' [= <-] Hc'. congruence.
    + intros r' text rest' [= <-] Hc'.
      assert (b = TextBlock text) as -> by congruence. reflexivity.
  - cbn [fst snd app]. repeat split; intros; congruence.
Qed.

(** C6: if the tool definitions or the registry are absent,
    [generate_response] issues exactly one model call, whose only message is
    the user query and which has no tools parameter, and returns the text of
    the first content block of the answer, or exactly "I received an empty
    response from the AI." when the answer carries no content block. *)
Theorem fallback_single_call self query history tool_defs tool_manager max_rounds :
  tool_defs = None \/ tool_manager = None ->
  exists result tr,
    generate_response self query history tool_defs tool_manager max_rounds
      = Some (result, tr) /\
    single_plain_call self query history result tr.
Proof.
  intros Habsent.
  exists (fst (simple_response self query (system_content_of self history) [])),
         (snd (simple_response self query (system_content_of self history) [])).
  split; [|apply simple_response_single_call].
  rewrite <- surjective_pairing. unfold generate_response.
  destruct Habsent as [-> | ->]; [reflexivity|].
  now destruct tool_defs as [[|d ds]|].
Qed.

(** C10: with [tools] equal to the empty list, whatever the registry, the
    call takes the path without tools: it is the fallback's single model
    call, without tools parameter; nothing is dispatched and the round loop
    is not run. *)
Theorem empty_tool_list_is_fallback self query history tool_manager max_rounds :
  exists result tr,
    generate_response self query history (Some []) tool_manager max_rounds
      = Some (result, tr) /\
    (result, tr) = simple_response self query (system_content_of self history) [] /\
    single_plain_call self query history result tr /\
    length (model_calls tr) = 1%nat /\
    tool_calls tr = [] /\
    tool_batches tr = 0%nat.
Proof.
  exists (fst (simple_response self query (system_content_of self history) [])),
         (snd (simple_response self query (system_content_of self history) [])).
  rewrite <- surjective_pairing.
  split; [now destruct tool_manager|]. split; [reflexivity|].
  pose proof (simple_response_single_call self query history) as Hcall.
  split; [exact Hcall|].
  destruct Hcall as (p & o & _ & _ & -> & _). now cbn.
Qed.

(** ** One round of tool execution, as stated *)

(** C3, amended: when a model response signals tool use, the registry is
    asked once for every tool-use block of the response, in the order of the
    blocks; an exception raised by an execution becomes the text "Tool
    execution failed: <message>" and the remaining requests are still
    dispatched; the assistant message is appended, and, when the response has
    at least one tool-use block, the results follow as one single user message
    with one tool_result entry per request, each carrying that request's id.
    When the response has no tool-use block no user message is appended. *)
Theorem tool_round_batches_results response msgs tm tr :
  signals_tool_use (Ok response) = true ->
  tool_round_effect one_message_if_any response msgs tm tr.
Proof.
  intros _. unfold tool_round_effect, _execute_tools_only.
  destruct (execute_blocks_dispatches tm (content response) [] (tr ++ [ToolBatch]))
    as (outcomes & Hlen & Hans & Hrun).
  exists outcomes. split; [exact Hlen|]. split; [exact Hans|].
  rewrite Hrun. cbn [app].
  replace ((tr ++ [ToolBatch]) ++
             map dispatch_event (combine (tool_requests (content response)) outcomes))
    with (tr ++ ToolBatch ::
             map dispatch_event (combine (tool_requests (content response)) outcomes))
    by now rewrite <- app_assoc.
  unfold one_message_if_any, assistant_message, results_message.
  destruct (map result_entry _); [|rewrite <- app_assoc]; reflexivity.
Qed.

(** ** The statements on concrete runs *)

Import Examples.

(** The scenarios A to D of the specification. *)

Example scenario_no_tools :
  observe (generate_response (generator direct_client) "Capital of France?"
             None None None 2)
  = Some (Ok "Paris", 1%nat, 0%nat).
Proof. reflexivity. Qed.

Example scenario_one_tool_round :
  observe (generate_response (generator one_search_client) "q" None
             (Some [search_definition]) (Some steady_manager) 2)
  = Some (Ok "Final answer", 2%nat, 1%nat).
Proof. reflexivity. Qed.

Example scenario_two_tool_rounds :
  observe (generate_response (generator eager_client) "q" None
             (Some [search_definition]) (Some steady_manager) 2)
  = Some (Ok "Final answer", 3%nat, 2%nat).
Proof. reflexivity. Qed.

Example scenario_first_call_fails :
  observe (generate_response (generator broken_client) "q" None
             (Some [search_definition]) (Some steady_manager) 2)
  = Some (Ok "I encountered an error processing your request: API Error",
          1%nat, 0%nat).
Proof. reflexivity. Qed.

Example scenario_second_call_fails :
  observe (generate_response (generator flaky_client) "q" None
             (Some [search_definition]) (Some steady_manager) 2)
  = Some (Ok follow_up_error_text, 2%nat, 1%nat).
Proof. reflexivity. Qed.

(** Without tools nothing is caught: a failing call reaches the caller. *)
Example fallback_failure_propagates :
  observe (generate_response (generator broken_client) "Test query" None None None 2)
  = Some (Raise "API Error", 1%nat, 0%nat).
Proof. reflexivity. Qed.

Lemma eager_client_always_signals tr p :
  has_tools p = true -> signals_tool_use (client (generator eager_client) tr p) = true.
Proof. intros H. cbn. unfold eager_client. now rewrite H. Qed.

Lemma always_tool_use_call_count_witness :
  (1 <= 2)%Z /\
  (forall tr p,
      has_tools p = true ->
      signals_tool_use (client (generator eager_client) tr p) = true) /\
  exists text tr,
    generate_response (generator eager_client) "q" None
      (Some [search_definition]) (Some steady_manager) 2 = Some (Ok text, tr) /\
    map (fun c => tools (fst c)) (model_calls tr)
      = repeat (Some [search_definition]) (Z.to_nat 2) ++ [None] /\
    length (model_calls tr) = S (Z.to_nat 2) /\
    tool_batches tr = Z.to_nat 2.
Proof.
  split; [lia|]. split; [exact eager_client_always_signals|].
  apply (always_tool_use_call_count (generator eager_client) "q" None
           search_definition [] steady_manager 2).
  - lia.
  - exact eager_client_always_signals.
Defined.

(** C2 as stated fails: a response that signals tool use but carries no
    tool-use block does not end the run; the loop goes on to the next round
    and the text returned is that of a later call. *)
Lemma tool_use_signal_without_blocks_continues :
  ~ returns_without_tool_blocks (generator signal_only_client) "q" None
      [search_definition] steady_manager 2.
Proof.
  intros (result & tr & Hrun & H).
  vm_compute in Hrun. injection Hrun as <- <-.
  destruct (H 0%nat _ signal_only_response eq_refl eq_refl eq_refl)
    as (_ & Hlen & _).
  discriminate Hlen.
Qed.

Lemma early_return_without_tool_use_witness :
  exists result tr p r,
    generate_response (generator direct_client) "q" None
      (Some [search_definition]) (Some steady_manager) 2 = Some (result, tr) /\
    nth_error (model_calls tr) 0 = Some (p, Ok r) /\
    has_tools p = true /\
    existsb is_tool_use (content r) = false /\
    signals_tool_use (Ok r) = false /\
    result = Ok "Paris" /\
    returned_at result tr 0 p r /\ (Z.of_nat 1 <= 2)%Z.
Proof.
  destruct (early_return_without_tool_use (generator direct_client) "q" None
              search_definition [] steady_manager 2)
    as (result & tr & Hrun & H).
  vm_compute in Hrun. injection Hrun as <- <-.
  eexists _, _, _, _. split; [vm_compute; reflexivity|].
  split; [vm_compute; reflexivity|].
  split; [reflexivity|]. split; [reflexivity|]. split; [reflexivity|].
  split; [reflexivity|].
  apply H; reflexivity.
Defined.

Lemma model_failure_becomes_text_witness :
  exists result tr p,
    generate_response (generator flaky_client) "q" None
      (Some [search_definition]) (Some steady_manager) 2 = Some (result, tr) /\
    nth_error (model_calls tr) 1 = Some (p, Raise "API Error in round 2") /\
    has_tools p = true /\
    result = Ok follow_up_error_text.
Proof.
  destruct (model_failure_becomes_text (generator flaky_client) "q" None
              search_definition [] steady_manager 2)
    as (result & tr & Hrun & _ & _ & H).
  vm_compute in Hrun. injection Hrun as <- <-.
  eexists _, _, _. split; [vm_compute; reflexivity|].
  split; [vm_compute; reflexivity|]. split; [reflexivity|].
  exact (H 1%nat _ "API Error in round 2" eq_refl eq_refl).
Defined.

Lemma forced_final_call_witness :
  exists tr,
    generate_response (generator eager_client) "q" None
      (Some [search_definition]) (Some steady_manager) 2
      = Some (Ok "Final answer", tr) /\
    length (filter tool_round (model_calls tr)) = Z.to_nat 2 /\
    forced_final_shape (generator eager_client) "q" None [search_definition]
      steady_manager 2 (Ok "Final answer") tr.
Proof.
  destruct (forced_final_call (generator eager_client) "q" None
              search_definition [] steady_manager 2)
    as (result & tr & Hrun & H).
  vm_compute in Hrun. injection Hrun as <- <-.
  eexists. split; [vm_compute; reflexivity|].
  split; [reflexivity|]. apply H. reflexivity.
Defined.

Lemma fallback_single_call_witness :
  (@None (list ToolDefinition) = None \/ Some steady_manager = None) /\
  exists result tr,
    generate_response (generator direct_client) "q" None None
      (Some steady_manager) 2 = Some (result, tr) /\
    single_plain_call (generator direct_client) "q" None result tr.
Proof.
  split; [left; reflexivity|].
  apply (fallback_single_call (generator direct_client) "q" None None
           (Some steady_manager) 2).
  left. reflexivity.
Defined.

(** C3 as stated fails: for a response that signals tool use without any
    tool-use block, no user message follows the assistant message. *)
Lemma no_request_no_results_message :
  signals_tool_use (Ok signal_only_response) = true /\
  ~ tool_round_effect always_one_message signal_only_response
      [query_message "q"] steady_manager [].
Proof.
  split; [reflexivity|].
  intros (outcomes & _ & _ & Hrun).
  vm_compute in Hrun. discriminate Hrun.
Qed.

Lemma tool_round_batches_results_witness :
  signals_tool_use (Ok two_requests) = true /\
  tool_round_effect one_message_if_any two_requests [query_message "q"]
    failing_manager [].
Proof.
  split; [reflexivity|].
  apply (tool_round_batches_results two_requests [query_message "q"]
           failing_manager []).
  reflexivity.
Defined.

End AIGeneratorFacts.

(** * Properties of the registry and of the content-search tool *)

Module SearchToolsFacts.
Import SearchTools.

(** C7: for every name without a registered tool, the registry's
    [execute(name, ...)] returns exactly the string "Tool '<name>' not found",
    as a value, not as an exception; the registry is left as it was. *)
Theorem unknown_tool_not_found (self : ToolManager.t) name input :
  ToolManager.lookup name self = None ->
  ToolManager.execute_tool self name input
    = (Ok ("Tool '" ++ name ++ "' not found")%string, self).
Proof. intros Hname. unfold ToolManager.execute_tool. now rewrite Hname. Qed.

Lemma unknown_tool_not_found_witness :
  ToolManager.lookup "missing_tool" [] = None /\
  ToolManager.execute_tool [] "missing_tool" []
    = (Ok "Tool 'missing_tool' not found", []).
Proof.
  split; [reflexivity|].
  apply (unknown_tool_not_found [] "missing_tool" []). reflexivity.
Defined.

(** C8: for every registry state, after [reset_sources] every registered
    tool's [last_sources] is empty and [get_last_sources] returns the empty
    sequence. *)
Theorem reset_sources_clears (self : ToolManager.t) :
  ToolManager.get_last_sources (ToolManager.reset_sources self) = [] /\
  Forall (fun e => ToolManager.last_sources (snd e) = Some [])
    (ToolManager.reset_sources self).
Proof.
  induction self as [|[name tool] rest [IHget IHall]]; cbn; [now split|].
  split; [exact IHget | now constructor].
Qed.

(** C9: for every search, with k matches, [execute] of the content-search
    tool replaces [last_sources], whatever it held, by exactly k
    SourceAttributions in the order of the matches; each has the text
    "<course_title> - Lesson <lesson_number>" of its match and, when the match
    carries a lesson number, the link [get_lesson_link] gives for it. *)
Theorem search_overwrites_sources (self : CourseSearchTool.t) query course_name lesson :
  let results := search (CourseSearchTool.store self) query course_name lesson in
  let sources :=
    CourseSearchTool.last_sources
      (snd (CourseSearchTool.execute self query course_name lesson)) in
  sources = map (attribution (CourseSearchTool.store self)) (map snd (matches results)) /\
  length sources = length (matches results) /\
  forall i doc m,
    nth_error (matches results) i = Some (doc, m) ->
    exists source,
      nth_error sources i = Some source /\
      text source
        = (course_title m ++ " - Lesson " ++ lesson_label (lesson_number m))%string /\
      forall n,
        lesson_number m = Some n ->
        text source = (course_title m ++ " - Lesson " ++ show_number n)%string /\
        link source = get_lesson_link (CourseSearchTool.store self) (course_title m) n.
Proof.
  intros results sources.
  assert (Hsources : sources = map (attribution (CourseSearchTool.store self))
                                 (map snd (matches results))).
  { unfold sources, CourseSearchTool.execute. fold results.
    destruct (error results); [reflexivity|].
    now destruct (matches results). }
  split; [exact Hsources|]. split; [now rewrite Hsources, !length_map|].
  intros i doc m Hi. exists (attribution (CourseSearchTool.store self) m). split.
  - rewrite Hsources, map_map. now rewrite nth_error_map, Hi.
  - split; [reflexivity|]. intros n Hn. unfold attribution. cbn. now rewrite Hn.
Qed.

(** ** The tests of the registry and of the tool, on the model *)

Import Examples.

Example sources_tracking :
  CourseSearchTool.last_sources
    (snd (CourseSearchTool.execute used_search_tool "test query" None None))
  = [{| text := "Test Course - Lesson 1";
        link := Some "http://example.com/lesson1" |};
     {| text := "Test Course - Lesson None"; link := None |}].
Proof. reflexivity. Qed.

Example rendered_matches :
  fst (CourseSearchTool.execute used_search_tool "test query" None None)
  = ("[Test Course - Lesson 1]" ++ newline ++ "Document 1 content"
       ++ newline ++ newline
       ++ "[Test Course]" ++ newline ++ "Document 2 content")%string.
Proof. reflexivity. Qed.

Example no_content_without_filters :
  no_content_text None None = "No relevant content found.".
Proof. reflexivity. Qed.

Example no_content_with_filters :
  no_content_text (Some "X") (Some 3%Z)
  = "No relevant content found in course 'X' in lesson 3.".
Proof. reflexivity. Qed.

End SearchToolsFacts.

(** * Whole runs of the orchestrator *)

Module RoundsFacts.
Import AIGenerator Rounds AIGeneratorFacts.

Lemma map_fst_combine {A B : Type} (a : list A) :
  forall b : list B, length b = length a -> map fst (combine a b) = a.
Proof.
  induction a as [|x a IH]; intros [|y b] Hlen; cbn in *; try discriminate;
    [reflexivity|]. f_equal. apply IH. now injection Hlen.
Qed.

(** What [_execute_tools_only] does, for any response. *)
Lemma execute_tools_only_round response msgs tm tr :
  exists ds,
    map fst ds = tool_requests (content response) /\
    answered_by tm (tr ++ [ToolBatch]) ds /\
    _execute_tools_only response msgs tm tr =
      (msgs ++ assistant_message response :: one_message_if_any (map result_entry ds),
       tr ++ ToolBatch :: map dispatch_event ds).
Proof.
  unfold _execute_tools_only.
  destruct (execute_blocks_dispatches tm (content response) [] (tr ++ [ToolBatch]))
    as (outcomes & Hlen & Hans & Hrun).
  exists (combine (tool_requests (content response)) outcomes).
  split; [now apply map_fst_combine|]. split; [exact Hans|].
  rewrite Hrun. cbn [app].
  replace ((tr ++ [ToolBatch]) ++
             map dispatch_event (combine (tool_requests (content response)) outcomes))
    with (tr ++ ToolBatch ::
             map dispatch_event (combine (tool_requests (content response)) outcomes))
    by now rewrite <- app_assoc.
  unfold one_message_if_any, assistant_message, results_message.
  destruct (map result_entry _); [|rewrite <- app_assoc]; reflexivity.
Qed.

Section Loop.

Variables (self : t) (tool_defs : list ToolDefinition) (tm : ToolExecutor)
          (system_content : string) (max_rounds : Z).

(** The run of the loop, round by round. *)
Lemma rounds_loop_rounds :
  forall fuel msgs rc tr exit tr',
    rounds_loop fuel self tool_defs tm system_content max_rounds msgs rc tr
      = Some (exit, tr') ->
    exists rounds,
      genuine self tool_defs system_content tm msgs tr rounds /\
      match exit with
      | Exhausted msgs' =>
          tr' = tr ++ rounds_trace self tool_defs system_content msgs rounds /\
          msgs' = conversation msgs rounds /\
          (rc + Z.of_nat (length rounds) = Z.max rc max_rounds)%Z
      | Returned text =>
          tr' = tr ++ rounds_trace self tool_defs system_content msgs rounds
                  ++ [ModelCall
                        (round_params self tool_defs system_content
                           (conversation msgs rounds))
                        (client self
                           (tr ++ rounds_trace self tool_defs system_content msgs rounds)
                           (round_params self tool_defs system_content
                              (conversation msgs rounds)))] /\
          (rc + Z.of_nat (length rounds) < max_rounds)%Z /\
          signals_tool_use
            (client self
               (tr ++ rounds_trace self tool_defs system_content msgs rounds)
               (round_params self tool_defs system_content
                  (conversation msgs rounds))) = false /\
          text = round_text (rc + Z.of_nat (length rounds) + 1)
                   (client self
                      (tr ++ rounds_trace self tool_defs system_content msgs rounds)
                      (round_params self tool_defs system_content
                         (conversation msgs rounds)))
      end.
Proof.
  induction fuel as [|fuel IH]; intros msgs rc tr exit tr';
    cbn [rounds_loop]; destruct (Z.ltb_spec rc max_rounds) as [Hlt|Hge];
    try discriminate;
    try (intros [= <- <-]; exists []; cbn; unfold conversation; cbn;
         rewrite !app_nil_r; repeat split; lia).
  set (p := round_params self tool_defs system_content msgs).
  destruct (client self tr p) as [response|e] eqn:Hcall.
  - destruct (stop_reason response =? "tool_use") eqn:Hstop.
    + destruct (execute_tools_only_round response msgs tm
                  (tr ++ [ModelCall p (Ok response)])) as (ds & Hreq & Hans & Hrun).
      rewrite Hrun. intros Hloop.
      destruct (IH _ _ _ _ _ Hloop) as (rounds & Hgen & Hexit).
      set (rd := {| round_response := response; round_dispatches := ds |}).
      assert (Htr : (tr ++ [ModelCall p (Ok response)]) ++ ToolBatch :: map dispatch_event ds
                    = tr ++ round_events self tool_defs system_content msgs rd).
      { now rewrite <- app_assoc. }
      rewrite Htr in Hgen, Hexit.
      exists (rd :: rounds). split.
      * cbn [genuine]. fold p. cbn [round_response round_dispatches rd].
        split; [exact Hcall|]. split; [exact Hstop|]. split; [exact Hreq|].
        split; [|exact Hgen].
        now replace (tr ++ [ModelCall p (Ok response); ToolBatch])
          with ((tr ++ [ModelCall p (Ok response)]) ++ [ToolBatch])
          by now rewrite <- app_assoc.
      * assert (Hconv : conversation (msgs ++ round_tail rd) rounds
                        = conversation msgs (rd :: rounds)).
        { unfold conversation. cbn [flat_map]. now rewrite <- app_assoc. }
        change (msgs ++ assistant_message response
                  :: one_message_if_any (map result_entry ds))
          with (msgs ++ round_tail rd) in Hexit.
        rewrite Hconv in Hexit.
        cbn [rounds_trace length]. rewrite <- !app_assoc in Hexit.
        rewrite <- !app_assoc.
        replace (rc + Z.of_nat (S (length rounds)))%Z
          with (rc + 1 + Z.of_nat (length rounds))%Z by lia.
        destruct exit as [text|msgs'].
        -- destruct Hexit as (Htr' & Hrc & Hsig & Htext).
           repeat split; auto; lia.
        -- destruct Hexit as (Htr' & Hmsgs & Hrc). repeat split; auto; lia.
    + intros Hloop. exists []. split; [exact I|].
      assert (exit = Returned (round_text (rc + 1) (Ok response)) /\
              tr' = tr ++ [ModelCall p (Ok response)]) as [-> ->].
      { cbn [round_text]. destruct (content response) as [|b rest].
        - now inversion Hloop.
        - destruct (block_text b); now inversion Hloop. }
      unfold conversation. cbn [rounds_trace flat_map length Z.of_nat].
      rewrite !app_nil_r, Z.add_0_r. fold p. rewrite Hcall.
      cbn [signals_tool_use]. repeat split; auto.
  - intros [= <- <-]. exists []. split; [exact I|].
    unfold conversation. cbn [rounds_trace flat_map length Z.of_nat].
    rewrite !app_nil_r, Z.add_0_r. fold p. rewrite Hcall. repeat split; auto.
Qed.

End Loop.

(** Every run of [_execute_sequential_rounds] from an empty history is made
    of completed rounds and one last call. *)
Lemma sequential_rounds_grammar self query history defs tm max_rounds :
  exists text tr,
    _execute_sequential_rounds self query defs tm
      (system_content_of self history) max_rounds [] = Some (text, tr) /\
    run_grammar self query history defs tm max_rounds text tr.
Proof.
  unfold _execute_sequential_rounds.
  destruct (rounds_loop_total self defs tm (system_content_of self history)
              max_rounds (Z.to_nat max_rounds) [query_message query] 0 [])
    as (exit & tr0 & Hloop); [lia|].
  rewrite Hloop.
  destruct (rounds_loop_rounds _ _ _ _ _ _ _ _ _ _ _ Hloop) as (rounds & Hgen & Hexit).
  cbn [app] in Hexit. destruct exit as [text|msgs].
  - destruct Hexit as (-> & Hrc & Hsig & Htext).
    eexists _, _. split; [reflexivity|].
    exists rounds, false. cbn [last_params].
    split; [exact Hgen|]. split; [reflexivity|].
    split; [discriminate|]. intros _. repeat split; auto; lia.
  - destruct Hexit as (-> & -> & Hrc).
    eexists _, _. split; [reflexivity|].
    exists rounds, true. cbn [last_params].
    split; [exact Hgen|]. split; [reflexivity|].
    split; [|discriminate]. intros _. split; [lia | reflexivity].
Qed.

(** With a non-empty list of tools and a manager, [generate_response] is
    [_execute_sequential_rounds]. *)
Lemma generate_response_with_tools self query history d ds tm max_rounds :
  generate_response self query history (Some (d :: ds)) (Some tm) max_rounds
  = match _execute_sequential_rounds self query (d :: ds) tm
            (system_content_of self history) max_rounds [] with
    | Some (text, tr) => Some (Ok text, tr)
    | None => None
    end.
Proof. reflexivity. Qed.

Lemma tool_run_grammar self query history d ds tm max_rounds :
  exists text tr,
    generate_response self query history (Some (d :: ds)) (Some tm) max_rounds
      = Some (Ok text, tr) /\
    run_grammar self query history (d :: ds) tm max_rounds text tr.
Proof.
  destruct (sequential_rounds_grammar self query history (d :: ds) tm max_rounds)
    as (text & tr & Hrun & Hgrammar).
  exists text, tr. split; [|exact Hgrammar].
  now rewrite generate_response_with_tools, Hrun.
Qed.

(** X1: every run of [generate_response] with tools and a manager returns a
    text, and is made of completed tool rounds followed by exactly one last
    model call.  Each round is a call with the tools, answered with the
    tool-use signal, then one dispatch per request of the answer, in order.
    Each call is sent the query followed by the assistant message and the
    batched results of every round before it; the last call is without tools
    exactly when all [max_rounds] rounds were used. *)
Theorem run_is_rounds_then_last_call self query history d ds tm max_rounds :
  exists text tr,
    generate_response self query history (Some (d :: ds)) (Some tm) max_rounds
      = Some (Ok text, tr) /\
    run_grammar self query history (d :: ds) tm max_rounds text tr.
Proof.
  rewrite generate_response_with_tools.
  destruct (sequential_rounds_grammar self query history (d :: ds) tm max_rounds)
    as (text & tr & Hrun & rounds & forced & Hgen & Htr & Hforced & Hearly).
  rewrite Hrun. exists text, tr. split; [reflexivity|].
  exists rounds, forced. split; [exact Hgen|]. split; [exact Htr|].
  split; [exact Hforced | exact Hearly].
Qed.

(** ** Reading the events of the rounds *)

Lemma model_calls_dispatches (ds : list Dispatch) :
  model_calls (map dispatch_event ds) = [].
Proof. induction ds as [|[[[n i] id] o] ds IH]; cbn; [reflexivity | exact IH]. Qed.

Lemma tool_calls_dispatches (ds : list Dispatch) :
  map (fun c => (fst (fst c), snd (fst c))) (tool_calls (map dispatch_event ds))
  = map (fun q => (fst (fst q), snd (fst q))) (map fst ds).
Proof.
  induction ds as [|[[[n i] id] o] ds IH]; cbn; [reflexivity|]. f_equal. exact IH.
Qed.

Lemma tool_calls_app (a b : Trace) :
  tool_calls (a ++ b) = tool_calls a ++ tool_calls b.
Proof. unfold tool_calls. now rewrite flat_map_app. Qed.

Lemma model_calls_round self defs sys msgs rd :
  model_calls (round_events self defs sys msgs rd)
  = [(round_params self defs sys msgs, Ok (round_response rd))].
Proof.
  unfold round_events.
  change (model_calls (ModelCall ?p ?o :: ToolBatch :: ?l))
    with ((p, o) :: model_calls l).
  now rewrite model_calls_dispatches.
Qed.

Lemma model_calls_rounds self defs sys rounds :
  forall msgs,
    model_calls (rounds_trace self defs sys msgs rounds)
    = match rounds with
      | [] => []
      | rd :: rest =>
          (round_params self defs sys msgs, Ok (round_response rd))
            :: model_calls (rounds_trace self defs sys (msgs ++ round_tail rd) rest)
      end.
Proof.
  destruct rounds as [|rd rest]; intros msgs; [reflexivity|].
  cbn [rounds_trace]. now rewrite model_calls_app, model_calls_round.
Qed.

(** Every call of the rounds is a round that ended in tool use. *)
Lemma rounds_are_tool_rounds self defs sys tm rounds :
  forall msgs tr,
    genuine self defs sys tm msgs tr rounds ->
    forallb tool_round (model_calls (rounds_trace self defs sys msgs rounds)) = true /\
    length (model_calls (rounds_trace self defs sys msgs rounds)) = length rounds.
Proof.
  induction rounds as [|rd rest IH]; intros msgs tr Hgen; [now split|].
  rewrite model_calls_rounds. cbn [forallb length].
  destruct Hgen as (_ & Hsig & _ & _ & Hrest).
  destruct (IH _ _ Hrest) as [Hall Hlen].
  rewrite Hall, Hlen. unfold tool_round, has_tools. cbn [fst snd round_params tools].
  now rewrite Hsig.
Qed.

(** The last call of a run is not a round that ended in tool use. *)
Lemma last_call_is_no_tool_round self defs sys forced msgs o :
  (forced = false -> signals_tool_use o = false) ->
  tool_round (last_params self defs sys forced msgs, o) = false.
Proof.
  intros Hsig. unfold tool_round, has_tools. destruct forced; cbn; [reflexivity|].
  now rewrite Hsig.
Qed.

Lemma requested_no_tool_round c : tool_round c = false -> requested c = [].
Proof. unfold requested. intros ->. now destruct (snd c). Qed.

(** The dispatches of the rounds are the requests of their responses. *)
Lemma rounds_dispatch_requests self defs sys tm rounds :
  forall msgs tr,
    genuine self defs sys tm msgs tr rounds ->
    map (fun c => (fst (fst c), snd (fst c)))
        (tool_calls (rounds_trace self defs sys msgs rounds))
    = flat_map requested (model_calls (rounds_trace self defs sys msgs rounds)).
Proof.
  induction rounds as [|rd rest IH]; intros msgs tr Hgen; [reflexivity|].
  rewrite model_calls_rounds. cbn [flat_map rounds_trace].
  destruct Hgen as (_ & Hsig & Hreq & _ & Hrest).
  rewrite tool_calls_app, map_app, (IH _ _ Hrest). f_equal.
  unfold round_events.
  change (tool_calls (ModelCall ?p ?o :: ToolBatch :: ?l)) with (tool_calls l).
  rewrite tool_calls_dispatches, Hreq.
  unfold requested, tool_round, has_tools. cbn [fst snd round_params tools].
  now rewrite Hsig.
Qed.

(** X2: in every run with tools, whatever the model and the tools answer,
    the tools dispatched are exactly the requests of the responses that ended
    a round in tool use: every such request is dispatched once, with its name
    and input, in the order of the responses and of their blocks, and nothing
    else is dispatched. *)
Theorem dispatches_are_the_requests self query history d ds tm max_rounds :
  exists result tr,
    generate_response self query history (Some (d :: ds)) (Some tm) max_rounds
      = Some (result, tr) /\
    map (fun c => (fst (fst c), snd (fst c))) (tool_calls tr)
    = flat_map requested (model_calls tr).
Proof.
  destruct (tool_run_grammar self query history d ds tm max_rounds)
    as (text & tr & Hrun & rounds & forced & Hgen & -> & Hforced & Hearly).
  eexists _, _. split; [exact Hrun|].
  rewrite tool_calls_app, model_calls_app, flat_map_app, map_app.
  rewrite (rounds_dispatch_requests _ _ _ _ _ _ _ Hgen).
  cbn [tool_calls model_calls flat_map app].
  rewrite requested_no_tool_round; [reflexivity|].
  apply last_call_is_no_tool_round. intros Hf. now destruct (Hearly Hf) as (_ & ? & _).
Qed.

(** X3: in every run with tools, whatever the model answers, at least one
    and at most [max_rounds + 1] model calls are made (one for a [max_rounds]
    below 1), the number of tool-execution batches is the number of model
    calls minus one, and so at most [max_rounds]. *)
Theorem call_budget self query history d ds tm max_rounds :
  exists result tr,
    generate_response self query history (Some (d :: ds)) (Some tm) max_rounds
      = Some (result, tr) /\
    (1 <= length (model_calls tr) <= S (Z.to_nat max_rounds))%nat /\
    tool_batches tr = pred (length (model_calls tr)) /\
    (tool_batches tr <= Z.to_nat max_rounds)%nat.
Proof.
  destruct (generate_response_shape self query history d ds tm max_rounds)
    as (text & tr & pre & Hrun & _ & _ & Hshape).
  exists (Ok text), tr. split; [exact Hrun|].
  destruct Hshape as [(tr0 & msgs0 & -> & Hmc & Htb & Hrc & _)
                     |(tr0 & msgs & _ & -> & Hmc & Htb & Hlen & _)];
    rewrite model_calls_app, tool_batches_app, length_app, Hmc, Htb; cbn; lia.
Qed.

(** ** The messages of the calls *)

Lemma conversation_nil msgs : conversation msgs [] = msgs.
Proof. unfold conversation. cbn. apply app_nil_r. Qed.

Lemma conversation_cons msgs rd rounds :
  conversation msgs (rd :: rounds) = conversation (msgs ++ round_tail rd) rounds.
Proof. unfold conversation. cbn [flat_map]. now rewrite <- app_assoc. Qed.

(** Every call of the rounds is sent the conversation after some of the
    first rounds. *)
Lemma rounds_trace_messages self defs sys rounds :
  forall msgs,
    Forall (fun c => exists k,
                messages (fst c) = conversation msgs (firstn k rounds))
           (model_calls (rounds_trace self defs sys msgs rounds)).
Proof.
  induction rounds as [|rd rest IH]; intros msgs; [constructor|].
  rewrite model_calls_rounds. constructor.
  - exists 0%nat. cbn [firstn fst round_params messages].
    now rewrite conversation_nil.
  - eapply Forall_impl; [|apply IH]. intros c (k & Hk). exists (S k).
    cbn [firstn]. now rewrite conversation_cons.
Qed.

Lemma run_messages self query history defs tm max_rounds text tr :
  run_grammar self query history defs tm max_rounds text tr ->
  exists rounds,
    genuine self defs (system_content_of self history) tm
      [query_message query] [] rounds /\
    Forall (fun c => exists k,
                messages (fst c)
                = conversation [query_message query] (firstn k rounds))
           (model_calls tr).
Proof.
  intros (rounds & forced & Hgen & -> & _). exists rounds. split; [exact Hgen|].
  rewrite model_calls_app. apply Forall_app. split.
  - apply rounds_trace_messages.
  - cbn. constructor; [|constructor]. exists (length rounds).
    rewrite firstn_all. now destruct forced.
Qed.

Lemma round_tail_appended rounds :
  forallb appended_message (flat_map round_tail rounds) = true.
Proof.
  induction rounds as [|rd rest IH]; [reflexivity|].
  cbn [flat_map]. rewrite forallb_app, IH, andb_true_r.
  unfold round_tail, one_message_if_any.
  now destruct (map result_entry (round_dispatches rd)).
Qed.

(** X4: every model call of a run with tools is sent a conversation that
    starts with the user's query as plain text; every message after it was
    appended by a round and is either an assistant message with the blocks of
    a response or a user message with at least one tool result: a message
    with an empty list of results is never sent. *)
Theorem conversations_are_well_formed self query history d ds tm max_rounds :
  exists result tr,
    generate_response self query history (Some (d :: ds)) (Some tm) max_rounds
      = Some (result, tr) /\
    Forall (fun c => exists rest,
                messages (fst c) = query_message query :: rest /\
                forallb appended_message rest = true)
           (model_calls tr).
Proof.
  destruct (tool_run_grammar self query history d ds tm max_rounds)
    as (text & tr & Hrun & Hgrammar).
  exists (Ok text), tr. split; [exact Hrun|].
  destruct (run_messages _ _ _ _ _ _ _ _ Hgrammar) as (rounds & _ & Hall).
  eapply Forall_impl; [|exact Hall]. intros c (k & ->).
  exists (flat_map round_tail (firstn k rounds)). split; [reflexivity|].
  apply round_tail_appended.
Qed.

(** ** The parameters of the calls *)

(** The system text of a run: the prompt alone when there is no history or
    an empty one. *)
Lemma system_content_cases self history :
  system_content_of self history =
  match history with
  | Some (String c rest) =>
      (SYSTEM_PROMPT self ++ newline ++ newline ++ "Previous conversation:"
         ++ newline ++ String c rest)%string
  | _ => SYSTEM_PROMPT self
  end.
Proof. now destruct history as [[|c rest]|]. Qed.

Lemma rounds_trace_params self defs sys rounds :
  forall msgs,
    Forall (fun c => fst c = round_params self defs sys (messages (fst c)))
           (model_calls (rounds_trace self defs sys msgs rounds)).
Proof.
  induction rounds as [|rd rest IH]; intros msgs; [constructor|].
  rewrite model_calls_rounds. constructor; [reflexivity | apply IH].
Qed.

(** X5: every model call of a run, with or without tools, carries the
    model name of the instance, temperature 0, max_tokens 800 and the same
    system text: the prompt, followed by the previous conversation only when
    a non-empty history was given.  A call either carries the given tool
    definitions with the automatic tool choice, or neither of the two. *)
Theorem calls_share_base_parameters
    self query history tool_defs tool_manager max_rounds :
  exists result tr,
    generate_response self query history tool_defs tool_manager max_rounds
      = Some (result, tr) /\
    Forall (fun c =>
              model_id (fst c) = model self /\
              temperature (fst c) = 0%Z /\
              max_tokens (fst c) = 800%Z /\
              system (fst c) =
                match history with
                | Some (String h rest) =>
                    (SYSTEM_PROMPT self ++ newline ++ newline
                       ++ "Previous conversation:" ++ newline
                       ++ String h rest)%string
                | _ => SYSTEM_PROMPT self
                end /\
              ((tools (fst c) = tool_defs /\ tool_choice (fst c) = Some "auto") \/
               (tools (fst c) = None /\ tool_choice (fst c) = None)))
           (model_calls tr).
Proof.
  rewrite <- system_content_cases.
  assert (Hfallback :
            exists result tr,
              Some (simple_response self query (system_content_of self history) [])
                = Some (result, tr) /\
              Forall (fun c =>
                        model_id (fst c) = model self /\
                        temperature (fst c) = 0%Z /\
                        max_tokens (fst c) = 800%Z /\
                        system (fst c) = system_content_of self history /\
                        ((tools (fst c) = tool_defs /\
                          tool_choice (fst c) = Some "auto") \/
                         (tools (fst c) = None /\ tool_choice (fst c) = None)))
                     (model_calls tr)).
  { eexists _, _. split; [apply f_equal, surjective_pairing|].
    unfold simple_response.
    destruct (client self [] _) as [r|e]; [destruct (content r)|];
      cbn [snd app model_calls flat_map];
      (constructor; [|constructor]); cbn; repeat split; auto. }
  destruct tool_defs as [[|d ds]|]; [exact Hfallback| |exact Hfallback].
  destruct tool_manager as [tm|]; [|exact Hfallback]. clear Hfallback.
  destruct (tool_run_grammar self query history d ds tm max_rounds)
    as (text & tr & Hrun & rounds & forced & _ & -> & _).
  exists (Ok text). eexists. split; [exact Hrun|].
  rewrite model_calls_app. apply Forall_app. split.
  - eapply Forall_impl; [|apply rounds_trace_params]. intros c ->.
    cbn. repeat split; auto.
  - cbn. constructor; [|constructor]. destruct forced; cbn; repeat split; auto.
Qed.

(** ** Alternation of roles *)

Lemma alternating_round :
  forall n roles,
    (length roles <= n)%nat ->
    alternating roles = true ->
    alternating (roles ++ [assistant; user]) = true.
Proof.
  induction n as [|n IH]; intros roles Hlen Halt.
  - destruct roles; [discriminate | cbn in Hlen; lia].
  - destruct roles as [|[] [|[] rest]]; try discriminate; [reflexivity|].
    cbn [app alternating] in *. apply IH; [cbn in Hlen; lia | exact Halt].
Qed.

Lemma tool_requests_nonempty blocks :
  existsb is_tool_use blocks = true -> tool_requests blocks <> [].
Proof.
  induction blocks as [|[text|name input id] rest IH]; cbn; try discriminate.
  exact IH.
Qed.

(** When every response that signals tool use carries a request, every
    round of a run has a dispatch. *)
Lemma genuine_rounds_dispatch self defs sys tm rounds :
  (forall tr p r,
      client self tr p = Ok r -> signals_tool_use (Ok r) = true ->
      existsb is_tool_use (content r) = true) ->
  forall msgs tr,
    genuine self defs sys tm msgs tr rounds ->
    Forall (fun rd => round_dispatches rd <> []) rounds.
Proof.
  intros Hblocks. induction rounds as [|rd rest IH]; intros msgs tr Hgen;
    [constructor|].
  destruct Hgen as (Hcall & Hsig & Hreq & _ & Hrest).
  constructor; [|exact (IH _ _ Hrest)].
  intros Hnil. rewrite Hnil in Hreq.
  apply (tool_requests_nonempty _ (Hblocks _ _ _ Hcall Hsig)). now rewrite <- Hreq.
Qed.

Lemma conversation_alternates rounds :
  Forall (fun rd => round_dispatches rd <> []) rounds ->
  forall msgs k,
    alternating (map role msgs) = true ->
    alternating (map role (conversation msgs (firstn k rounds))) = true.
Proof.
  induction 1 as [|rd rest Hrd _ IH]; intros msgs k Halt.
  - rewrite firstn_nil, conversation_nil. exact Halt.
  - destruct k as [|k]; [now rewrite conversation_nil|].
    cbn [firstn]. rewrite conversation_cons. apply IH.
    rewrite map_app. unfold round_tail, one_message_if_any.
    destruct (round_dispatches rd) as [|dsp rest']; [contradiction|].
    cbn [map role assistant_message results_message].
    now apply (alternating_round (length (map role msgs))).
Qed.

(** X6: when every response that signals tool use carries at least one
    tool-use block, every model call of a run with tools is sent a
    conversation whose roles start with the user, alternate between user and
    assistant, and end with the user. *)
Theorem roles_alternate self query history d ds tm max_rounds :
  (forall tr p r,
      client self tr p = Ok r -> signals_tool_use (Ok r) = true ->
      existsb is_tool_use (content r) = true) ->
  exists result tr,
    generate_response self query history (Some (d :: ds)) (Some tm) max_rounds
      = Some (result, tr) /\
    Forall (fun c => alternating (map role (messages (fst c))) = true)
           (model_calls tr).
Proof.
  intros Hblocks.
  destruct (tool_run_grammar self query history d ds tm max_rounds)
    as (text & tr & Hrun & Hgrammar).
  exists (Ok text), tr. split; [exact Hrun|].
  destruct (run_messages _ _ _ _ _ _ _ _ Hgrammar) as (rounds & Hgen & Hall).
  eapply Forall_impl; [|exact Hall]. intros c (k & ->).
  apply conversation_alternates; [|reflexivity].
  exact (genuine_rounds_dispatch _ _ _ _ _ Hblocks _ _ Hgen).
Qed.

(** ** The round budget *)

(** X7: with tools and a manager but a [max_rounds] of zero or less, the
    tools are never offered: the run is the single final call, without tools,
    on the query alone, and its failure or empty answer gives the fixed
    sentence "I've completed my analysis but couldn't provide a final
    response." instead of an exception. *)
Theorem no_budget_goes_to_final_call self query history d ds tm max_rounds :
  (max_rounds <= 0)%Z ->
  generate_response self query history (Some (d :: ds)) (Some tm) max_rounds
  = Some (Ok (final_text
                (client self []
                   (plain_params self (system_content_of self history)
                      [query_message query]))),
          [ModelCall
             (plain_params self (system_content_of self history)
                [query_message query])
             (client self []
                (plain_params self (system_content_of self history)
                   [query_message query]))]).
Proof.
  intros Hn. unfold generate_response, _execute_sequential_rounds.
  replace (Z.to_nat max_rounds) with 0%nat by lia. cbn [rounds_loop].
  destruct (Z.ltb_spec 0 max_rounds); [lia | reflexivity].
Qed.

(** A run of the loop that returned keeps its result under a larger
    budget. *)
Lemma rounds_loop_returned_mono self defs tm sys max_rounds max_rounds' :
  (max_rounds <= max_rounds')%Z ->
  forall fuel fuel' msgs rc tr text tr',
    (fuel <= fuel')%nat ->
    rounds_loop fuel self defs tm sys max_rounds msgs rc tr
      = Some (Returned text, tr') ->
    rounds_loop fuel' self defs tm sys max_rounds' msgs rc tr
      = Some (Returned text, tr').
Proof.
  intros Hle. induction fuel as [|fuel IH]; intros fuel' msgs rc tr text tr' Hfuel;
    cbn [rounds_loop]; destruct (Z.ltb_spec rc max_rounds) as [Hlt|Hge];
    try discriminate.
  destruct fuel' as [|fuel']; [lia|]. cbn [rounds_loop].
  destruct (Z.ltb_spec rc max_rounds'); [|lia].
  destruct (client self tr _) as [response|e]; [|trivial].
  destruct (stop_reason response =? "tool_use"); [|trivial].
  destruct (_execute_tools_only response msgs tm _) as [msgs1 tr1].
  apply IH. lia.
Qed.

(** X8: a run with tools that ended before the round budget was used up
    (its last call still carried the tools) is not changed by a larger
    [max_rounds]: the same calls are made and the same text is returned. *)
Theorem larger_budget_keeps_early_answer
    self query history d ds tm max_rounds max_rounds' result tr :
  generate_response self query history (Some (d :: ds)) (Some tm) max_rounds
    = Some (result, tr) ->
  forallb (fun c => has_tools (fst c)) (model_calls tr) = true ->
  (max_rounds <= max_rounds')%Z ->
  generate_response self query history (Some (d :: ds)) (Some tm) max_rounds'
    = Some (result, tr).
Proof.
  unfold generate_response, _execute_sequential_rounds. intros Hrun Htools Hle.
  destruct (rounds_loop (Z.to_nat max_rounds) _ _ _ _ _ _ _ _)
    as [[[text|msgs] tr0]|] eqn:Hloop; try discriminate.
  - assert (Hfuel : (Z.to_nat max_rounds <= Z.to_nat max_rounds')%nat) by lia.
    rewrite (rounds_loop_returned_mono _ _ _ _ _ _ Hle _ _ _ _ _ _ _ Hfuel Hloop).
    exact Hrun.
  - injection Hrun as <- <-. rewrite model_calls_app, forallb_app in Htools.
    cbn in Htools. now rewrite andb_false_r in Htools.
Qed.

(** ** Failures on the path without tools *)

(** X9: on the path without tools (no tool definitions, an empty list of
    them, or no manager) nothing is caught: when the model call raises, the
    exception reaches the caller of [generate_response] with its message. *)
Theorem fallback_failure_reaches_caller
    self query history tool_defs tool_manager max_rounds e :
  tool_defs = None \/ tool_defs = Some [] \/ tool_manager = None ->
  client self []
    (plain_params self (system_content_of self history) [query_message query])
    = Raise e ->
  generate_response self query history tool_defs tool_manager max_rounds
  = Some (Raise e,
          [ModelCall
             (plain_params self (system_content_of self history)
                [query_message query])
             (Raise e)]).
Proof.
  intros Habsent Hcall.
  assert (Hsimple :
            simple_response self query (system_content_of self history) []
            = (Raise e,
               [ModelCall
                  (plain_params self (system_content_of self history)
                     [query_message query])
                  (Raise e)])).
  { unfold simple_response. now rewrite Hcall. }
  unfold generate_response. rewrite Hsimple.
  destruct Habsent as [-> | [-> | ->]]; [reflexivity | reflexivity |].
  now destruct tool_defs as [[|d ds]|].
Qed.

(** ** The single-round path *)

(** X10: [_handle_tool_execution] dispatches every request of the response
    once, in order; a tool that raises yields the text "Tool execution failed:
    <message>" as its result and does not stop the others.  It then makes
    exactly one model call, without tools, on the base messages followed by
    the assistant message and, if there are results, one user message with
    them.  Nothing is caught around that call: its exception reaches the
    caller, and an answer without content raises the IndexError of
    [content[0]]; otherwise the text of the first block is returned. *)
Theorem legacy_path_effect self initial_response base_params tm tr :
  exists dispatched,
    map fst dispatched = tool_requests (content initial_response) /\
    answered_by tm (tr ++ [ToolBatch]) dispatched /\
    snd (_handle_tool_execution self initial_response base_params tm tr)
    = tr ++ ToolBatch :: map dispatch_event dispatched
         ++ [ModelCall
               (plain_params self (base_system base_params)
                  (base_messages base_params
                     ++ assistant_message initial_response
                     :: one_message_if_any (map result_entry dispatched)))
               (client self (tr ++ ToolBatch :: map dispatch_event dispatched)
                  (plain_params self (base_system base_params)
                     (base_messages base_params
                        ++ assistant_message initial_response
                        :: one_message_if_any (map result_entry dispatched))))] /\
    fst (_handle_tool_execution self initial_response base_params tm tr)
    = match client self (tr ++ ToolBatch :: map dispatch_event dispatched)
              (plain_params self (base_system base_params)
                 (base_messages base_params
                    ++ assistant_message initial_response
                    :: one_message_if_any (map result_entry dispatched))) with
      | Raise e => Raise e
      | Ok final_response =>
          match content final_response with
          | [] => Raise "list index out of range"
          | b :: _ => block_text b
          end
      end.
Proof.
  unfold _handle_tool_execution.
  destruct (execute_blocks_dispatches tm (content initial_response) []
              (tr ++ [ToolBatch])) as (outcomes & Hlen & Hans & Hrun).
  exists (combine (tool_requests (content initial_response)) outcomes).
  split; [now apply map_fst_combine|]. split; [exact Hans|].
  rewrite Hrun. cbn [app].
  replace ((tr ++ [ToolBatch]) ++
             map dispatch_event
               (combine (tool_requests (content initial_response)) outcomes))
    with (tr ++ ToolBatch ::
             map dispatch_event
               (combine (tool_requests (content initial_response)) outcomes))
    by now rewrite <- app_assoc.
  set (tr1 := tr ++ ToolBatch :: _).
  assert (Hmsgs :
            match map result_entry
                    (combine (tool_requests (content initial_response)) outcomes) with
            | [] =>
                base_messages base_params
                  ++ [{| role := assistant;
                         message_content := Blocks (content initial_response) |}]
            | _ :: _ =>
                (base_messages base_params
                   ++ [{| role := assistant;
                          message_content := Blocks (content initial_response) |}])
                  ++ [{| role := user;
                         message_content :=
                           ToolResults
                             (map result_entry
                                (combine (tool_requests (content initial_response))
                                   outcomes)) |}]
            end
            = base_messages base_params
                ++ assistant_message initial_response
                :: one_message_if_any
                     (map result_entry
                        (combine (tool_requests (content initial_response))
                           outcomes))).
  { unfold one_message_if_any, assistant_message, results_message.
    destruct (map result_entry _); [|rewrite <- app_assoc]; reflexivity. }
  rewrite Hmsgs.
  assert (Hlast : forall e : Event,
             tr1 ++ [e]
             = tr ++ ToolBatch
                 :: map dispatch_event
                      (combine (tool_requests (content initial_response)) outcomes)
                 ++ [e]).
  { intros e. unfold tr1. now rewrite <- app_assoc. }
  destruct (client self tr1 _) as [final_response|e];
    [destruct (content final_response)|];
    cbn [fst snd]; rewrite Hlast; split; reflexivity.
Qed.

(** X11: for a query whose first answer signals tool use, the round loop
    with [max_rounds = 1] makes exactly the calls and dispatches of
    [_handle_tool_execution] run on that answer after the first call, and
    returns the same text whenever that function returns one; where that
    function raises, the loop returns the fixed sentence "I've completed my
    analysis but couldn't provide a final response." instead. *)
Theorem one_round_agrees_with_legacy_path self query history d ds tm r :
  client self []
    (round_params self (d :: ds) (system_content_of self history)
       [query_message query]) = Ok r ->
  signals_tool_use (Ok r) = true ->
  exists text,
    generate_response self query history (Some (d :: ds)) (Some tm) 1
    = Some (Ok text,
            snd (_handle_tool_execution self r
                   {| base_messages := [query_message query];
                      base_system := system_content_of self history |}
                   tm
                   [ModelCall
                      (round_params self (d :: ds) (system_content_of self history)
                         [query_message query]) (Ok r)])) /\
    (forall answer,
        fst (_handle_tool_execution self r
               {| base_messages := [query_message query];
                  base_system := system_content_of self history |}
               tm
               [ModelCall
                  (round_params self (d :: ds) (system_content_of self history)
                     [query_message query]) (Ok r)]) = Ok answer ->
        text = answer) /\
    (forall e,
        fst (_handle_tool_execution self r
               {| base_messages := [query_message query];
                  base_system := system_content_of self history |}
               tm
               [ModelCall
                  (round_params self (d :: ds) (system_content_of self history)
                     [query_message query]) (Ok r)]) = Raise e ->
        text = no_final_response_text).
Proof.
  intros Hcall Hsignal. cbn [signals_tool_use] in Hsignal.
  unfold generate_response, _execute_sequential_rounds, _handle_tool_execution.
  change (Z.to_nat 1) with 1%nat. cbn [rounds_loop].
  change ((0 <? 1)%Z) with true. cbn iota. rewrite Hcall, Hsignal.
  unfold _execute_tools_only. cbn [app base_messages base_system].
  destruct (execute_blocks tm (content r) [] _) as [results tr1].
  change ((0 + 1 <? 1)%Z) with false. unfold final_text.
  destruct results as [|result results]; cbn iota;
    (destruct (client self tr1 _) as [final_response|e];
     [destruct (content final_response) as [|b rest];
      [|destruct b as [answer|name input id]]|]);
    cbn [final_text content block_text fst snd];
    eexists; (split; [reflexivity|]); split; intros ? [=]; subst; reflexivity.
Qed.

(** ** From one call to the next *)

(** The calls of the rounds followed by a last call on the conversation the
    rounds left: the first is sent [msgs], and each next one is sent what the
    one before was sent, followed by the messages of the round between
    them. *)
Lemma calls_grow self defs sys tm rounds :
  forall msgs tr last,
    genuine self defs sys tm msgs tr rounds ->
    messages (fst last) = conversation msgs rounds ->
    (exists first rest,
        model_calls (rounds_trace self defs sys msgs rounds) ++ [last]
        = first :: rest /\ messages (fst first) = msgs) /\
    forall i p o p' o',
      nth_error (model_calls (rounds_trace self defs sys msgs rounds) ++ [last]) i
        = Some (p, o) ->
      nth_error (model_calls (rounds_trace self defs sys msgs rounds) ++ [last]) (S i)
        = Some (p', o') ->
      exists r dispatched,
        o = Ok r /\
        signals_tool_use (Ok r) = true /\
        map fst dispatched = tool_requests (content r) /\
        messages p'
        = messages p ++ assistant_message r
            :: one_message_if_any (map result_entry dispatched).
Proof.
  induction rounds as [|rd rest IH]; intros msgs tr last Hgen Hlast.
  - rewrite conversation_nil in Hlast. split.
    + exists last, []. now split.
    + intros i p o p' o' _ Hnext. cbn in Hnext. now destruct i.
  - rewrite conversation_cons in Hlast.
    destruct Hgen as (_ & Hsig & Hreq & _ & Hrest).
    destruct (IH _ _ _ Hrest Hlast) as [(first & rest' & Hcalls & Hfirst) Hgrow].
    rewrite model_calls_rounds. cbn [app]. split.
    + eexists _, _. split; [reflexivity | reflexivity].
    + intros i p o p' o' Hi Hnext. destruct i as [|i].
      * cbn in Hi. injection Hi as <- <-. cbn [nth_error] in Hnext.
        rewrite Hcalls in Hnext. cbn in Hnext. injection Hnext as ->.
        cbn [fst] in Hfirst.
        exists (round_response rd), (round_dispatches rd).
        rewrite Hfirst. repeat split; auto.
      * cbn [nth_error] in Hi, Hnext. exact (Hgrow _ _ _ _ _ Hi Hnext).
Qed.

(** X12: in every run with tools, the first model call is sent the user's
    query alone, and every later call is sent exactly what the call before it
    was sent, followed by the assistant message with the blocks of that call's
    answer and, when that answer carried requests, one user message with one
    result per request.  A call is followed by another only if it was
    answered with the tool-use signal. *)
Theorem conversation_grows_by_rounds self query history d ds tm max_rounds :
  exists result tr,
    generate_response self query history (Some (d :: ds)) (Some tm) max_rounds
      = Some (result, tr) /\
    (exists first rest,
        model_calls tr = first :: rest /\
        messages (fst first) = [query_message query]) /\
    forall i p o p' o',
      nth_error (model_calls tr) i = Some (p, o) ->
      nth_error (model_calls tr) (S i) = Some (p', o') ->
      exists r dispatched,
        o = Ok r /\
        signals_tool_use (Ok r) = true /\
        map fst dispatched = tool_requests (content r) /\
        messages p'
        = messages p ++ assistant_message r
            :: one_message_if_any (map result_entry dispatched).
Proof.
  destruct (tool_run_grammar self query history d ds tm max_rounds)
    as (text & tr & Hrun & rounds & forced & Hgen & -> & _).
  exists (Ok text). eexists. split; [exact Hrun|].
  rewrite model_calls_app.
  change (model_calls [ModelCall ?p ?o]) with [(p, o)].
  apply (calls_grow _ _ _ _ _ _ _ _ Hgen). now destruct forced.
Qed.

(** ** The text returned *)

Lemma round_error_not_empty k e : round_error k e <> "".
Proof. unfold round_error. now destruct (k =? 1)%Z. Qed.

(** X13: a run with tools returns an empty text only when the model's own
    last answer starts with an empty text block: the texts the orchestrator
    produces by itself, for failures and for empty answers, are never
    empty. *)
Theorem empty_text_comes_from_the_model self query history d ds tm max_rounds :
  exists result tr,
    generate_response self query history (Some (d :: ds)) (Some tm) max_rounds
      = Some (result, tr) /\
    (result = Ok "" ->
     exists tr0 p r rest,
       tr = tr0 ++ [ModelCall p (Ok r)] /\ content r = TextBlock "" :: rest).
Proof.
  destruct (tool_run_grammar self query history d ds tm max_rounds)
    as (text & tr & Hrun & rounds & forced & _ & -> & Hforced & Hearly).
  exists (Ok text). eexists. split; [exact Hrun|].
  intros [= ->].
  set (tr0 := rounds_trace _ _ _ _ rounds) in *.
  set (p := last_params _ _ _ forced _) in *.
  assert (Htext : "" = final_text (client self tr0 p) \/
                  exists k, "" = round_text k (client self tr0 p)).
  { destruct forced.
    - left. now destruct (Hforced eq_refl).
    - right. destruct (Hearly eq_refl) as (_ & _ & ?). eauto. }
  exists tr0, p.
  destruct (client self tr0 p) as [r|e].
  - exists r. cbn [final_text round_text] in Htext.
    destruct (content r) as [|[t|n i id] rest].
    + destruct Htext as [?|[k ?]]; discriminate.
    + exists rest. split; [reflexivity|].
      cbn in Htext. destruct Htext as [<-|[k <-]]; reflexivity.
    + cbn in Htext. destruct Htext as [?|[k Hk]]; [discriminate|].
      symmetry in Hk. now apply round_error_not_empty in Hk.
  - cbn in Htext. destruct Htext as [?|[k Hk]]; [discriminate|].
    symmetry in Hk. now apply round_error_not_empty in Hk.
Qed.

(** ** The statements on concrete runs *)

Import Examples.

(** The tests of [_handle_tool_execution]: one request gives three
    messages, user, assistant, user, and the result carries the request's id;
    two requests give two results in one message. *)
Example single_round_on_one_request :
  let run :=
    _handle_tool_execution (generator direct_client)
      {| stop_reason := "tool_use"; content := [search_request] |}
      {| base_messages := [query_message "Test query"];
         base_system := SYSTEM_PROMPT (generator direct_client) |}
      steady_manager [] in
  fst run = Ok "Paris" /\
  map (fun c => map role (messages (fst c))) (model_calls (snd run))
    = [[user; assistant; user]] /\
  map (fun c => map message_content (skipn 2 (messages (fst c))))
      (model_calls (snd run))
    = [[ToolResults [{| tool_use_id := "tool_1";
                        result_content := "Tool result" |}]]].
Proof. repeat split. Qed.

Example single_round_on_two_requests :
  map (fun c => map message_content (skipn 2 (messages (fst c))))
      (model_calls
         (snd (_handle_tool_execution (generator direct_client) two_requests
                 {| base_messages := [query_message "Test query"];
                    base_system := SYSTEM_PROMPT (generator direct_client) |}
                 failing_manager [])))
  = [[ToolResults
        [{| tool_use_id := "tool_1_id";
            result_content := "Tool execution failed: index offline" |};
         {| tool_use_id := "tool_2_id";
            result_content := "Tool execution failed: index offline" |}]]].
Proof. reflexivity. Qed.

Lemma eager_client_requests tr p r :
  client (generator eager_client) tr p = Ok r ->
  signals_tool_use (Ok r) = true ->
  existsb is_tool_use (content r) = true.
Proof.
  cbn. unfold eager_client, answer.
  destruct (has_tools p); intros [= <-]; [reflexivity | discriminate].
Qed.

Lemma roles_alternate_witness :
  (forall tr p r,
      client (generator eager_client) tr p = Ok r ->
      signals_tool_use (Ok r) = true ->
      existsb is_tool_use (content r) = true) /\
  exists result tr,
    generate_response (generator eager_client) "q" None
      (Some [search_definition]) (Some steady_manager) 2 = Some (result, tr) /\
    Forall (fun c => alternating (map role (messages (fst c))) = true)
           (model_calls tr).
Proof.
  split; [exact eager_client_requests|].
  apply (roles_alternate (generator eager_client) "q" None search_definition []
           steady_manager 2).
  exact eager_client_requests.
Defined.

(** Without that condition the roles need not alternate: two assistant
    messages follow each other. *)
Example roles_after_signal_without_request :
  match generate_response (generator signal_only_client) "q" None
          (Some [search_definition]) (Some steady_manager) 2 with
  | Some (_, tr) => map (fun c => map role (messages (fst c))) (model_calls tr)
  | None => []
  end
  = [[user]; [user; assistant]; [user; assistant; assistant]].
Proof. reflexivity. Qed.

Lemma no_budget_goes_to_final_call_witness :
  (0 <= 0)%Z /\
  generate_response (generator eager_client) "q" None
    (Some [search_definition]) (Some steady_manager) 0
  = Some (Ok "Final answer",
          [ModelCall
             (plain_params (generator eager_client)
                (SYSTEM_PROMPT (generator eager_client)) [query_message "q"])
             (answer "Final answer")]).
Proof.
  split; [lia|].
  apply (no_budget_goes_to_final_call (generator eager_client) "q" None
           search_definition [] steady_manager 0).
  lia.
Defined.

Lemma larger_budget_keeps_early_answer_witness :
  exists result tr,
    generate_response (generator one_search_client) "q" None
      (Some [search_definition]) (Some steady_manager) 2 = Some (result, tr) /\
    forallb (fun c => has_tools (fst c)) (model_calls tr) = true /\
    (2 <= 5)%Z /\
    generate_response (generator one_search_client) "q" None
      (Some [search_definition]) (Some steady_manager) 5 = Some (result, tr).
Proof.
  eexists _, _. split; [vm_compute; reflexivity|].
  split; [reflexivity|]. split; [lia|].
  apply (larger_budget_keeps_early_answer (generator one_search_client) "q" None
           search_definition [] steady_manager 2 5);
    [vm_compute; reflexivity | reflexivity | lia].
Defined.

Lemma fallback_failure_reaches_caller_witness :
  (@None (list ToolDefinition) = None \/
   @None (list ToolDefinition) = Some [] \/ Some steady_manager = None) /\
  client (generator broken_client) []
    (plain_params (generator broken_client)
       (system_content_of (generator broken_client) None) [query_message "q"])
    = Raise "API Error" /\
  generate_response (generator broken_client) "q" None None
    (Some steady_manager) 2
  = Some (Raise "API Error",
          [ModelCall
             (plain_params (generator broken_client)
                (system_content_of (generator broken_client) None)
                [query_message "q"])
             (Raise "API Error")]).
Proof.
  split; [left; reflexivity|]. split; [reflexivity|].
  apply (fallback_failure_reaches_caller (generator broken_client) "q" None None
           (Some steady_manager) 2 "API Error");
    [left; reflexivity | reflexivity].
Defined.

Lemma one_round_agrees_with_legacy_path_witness :
  client (generator one_search_client) []
    (round_params (generator one_search_client) [search_definition]
       (system_content_of (generator one_search_client) None)
       [query_message "q"])
    = Ok {| stop_reason := "tool_use"; content := [search_request] |} /\
  exists text,
    generate_response (generator one_search_client) "q" None
      (Some [search_definition]) (Some steady_manager) 1
    = Some (Ok text,
            snd (_handle_tool_execution (generator one_search_client)
                   {| stop_reason := "tool_use"; content := [search_request] |}
                   {| base_messages := [query_message "q"];
                      base_system :=
                        system_content_of (generator one_search_client) None |}
                   steady_manager
                   [ModelCall
                      (round_params (generator one_search_client)
                         [search_definition]
                         (system_content_of (generator one_search_client) None)
                         [query_message "q"])
                      (Ok {| stop_reason := "tool_use";
                             content := [search_request] |})])) /\
    text = "Final answer".
Proof.
  split; [reflexivity|].
  destruct (one_round_agrees_with_legacy_path (generator one_search_client) "q"
              None search_definition [] steady_manager
              {| stop_reason := "tool_use"; content := [search_request] |}
              eq_refl eq_refl)
    as (text & Hrun & Hok & _).
  exists text. split; [exact Hrun|].
  apply Hok. reflexivity.
Defined.

End RoundsFacts.
